(** * Orders and inventory: [Order.save] and the order-confirmed receiver

    A shallow embedding of [orders/models.py] (class [Order] and its [save]
    override) and [products/signals.py] (the receiver
    [update_quantity_on_order_confirmation]), together with the part of the
    object-relational layer these two functions call into: model instances
    living on a heap, the two tables, the lazily loaded foreign key and the
    decimal arithmetic behind [DecimalField]. *)

From Stdlib Require Import ZArith String DecimalString Lia.
From stdpp Require Import base option gmap.

Local Open Scope Z_scope.

(** ** Decimal numbers

    [Order.total_price] is a [DecimalField(max_digits=10, decimal_places=2)]
    and holds a Python [decimal.Decimal]: a signed integer coefficient and a
    power of ten.  Only finite values are modelled (no NaN, no infinities, no
    negative zero) and the exponent limits of the arithmetic context (six
    digits of exponent either way) are left out. *)
Module Decimal.

Record t : Type := mk { coef : Z; exp : Z }.

(** Number of decimal digits of a natural number, [len(self._int)]; the
    fuel is the number of binary digits, which always suffices. *)
Fixpoint digits_go (fuel : nat) (n : Z) : Z :=
  match fuel with
  | O => 1
  | S fuel' => if n <? 10 then 1 else 1 + digits_go fuel' (n / 10)
  end.

Definition digits (c : Z) : Z :=
  digits_go (Z.to_nat (Z.log2 (Z.abs c))) (Z.abs c).

(** [adjusted()]: the exponent of the most significant digit. *)
Definition adjusted (d : t) : Z := exp d + digits (coef d) - 1.

(** Drop the last [k] digits of [c], rounding to nearest and ties to even
    ([ROUND_HALF_EVEN], the rounding of the default context). *)
Definition round_half_even (c k : Z) : Z :=
  let m := Z.abs c in
  let q := m / 10 ^ k in
  let r := m mod 10 ^ k in
  let up := (2 * r >? 10 ^ k) || ((2 * r =? 10 ^ k) && Z.odd q) in
  Z.sgn c * (if up then q + 1 else q).

(** [_fix]: round a nonzero result to at most [prec] significant digits. *)
Definition fix_prec (prec : Z) (d : t) : t :=
  if coef d =? 0 then d
  else
    let k := digits (coef d) - prec in
    if 0 <? k then
      let c := round_half_even (coef d) k in
      if prec <? digits c
      then mk (Z.quot c 10) (exp d + k + 1)
      else mk c (exp d + k)
    else d.

(** Precision of the default arithmetic context. *)
Definition default_prec : Z := 28.

(** [d * n] for a Python [int] [n]: the integer is converted to a decimal
    with exponent 0, coefficients are multiplied, exponents added and the
    result is fixed to the context precision. *)
Definition mul_int (d : t) (n : Z) : t :=
  fix_prec default_prec (mk (coef d * n) (exp d + 0)).

(** [_rescale]: the same value at exponent [e], rounding if digits are
    lost. *)
Definition rescale (e : Z) (d : t) : t :=
  if e <=? exp d
  then mk (coef d * 10 ^ (exp d - e)) e
  else mk (round_half_even (coef d) (e - exp d)) e.

(** [value.quantize(Decimal(1).scaleb(-places), context)] with
    [context.prec = prec]: [None] stands for [decimal.InvalidOperation]
    (the result has too many digits for the context). *)
Definition quantize (prec places : Z) (d : t) : option t :=
  if coef d =? 0 then Some (mk 0 (- places))
  else if prec <? adjusted d + places + 1 then None
  else
    let r := rescale (- places) d in
    if prec <? digits (coef r) then None else Some r.


(** Numerical equality, Python's [==] on two decimals: equal coefficients
    once both are brought to the smaller exponent. *)
Definition eqb (a b : t) : bool :=
  let e := Z.min (exp a) (exp b) in
  coef a * 10 ^ (exp a - e) =? coef b * 10 ^ (exp b - e).

End Decimal.

(** ** Model instances and table rows

    A Python model instance is an object with identity: it lives on a heap
    and is named by its location.  A table row is plain data under its
    primary key.  Locations are positive numbers. *)

(** Modelled from the spec: [products/models.py] is not among the sources.
    The spec gives a Product a [name] (text), a [price] (decimal currency
    amount) and a [quantity] (integer stock count); [pk] is the primary key
    every model has, [None] until the instance has been stored. *)
Module Product.

Record t : Type := mk {
  pk : option Z;
  name : string;
  price : Decimal.t;
  quantity : Z
}.

Record row : Type := mk_row {
  row_name : string;
  row_price : Decimal.t;
  row_quantity : Z
}.

Definition to_row (p : t) : row := mk_row (name p) (price p) (quantity p).

Definition of_row (k : Z) (r : row) : t :=
  mk (Some k) (row_name r) (row_price r) (row_quantity r).

Definition set_pk (k : Z) (p : t) : t :=
  mk (Some k) (name p) (price p) (quantity p).

Definition set_quantity (q : Z) (p : t) : t :=
  mk (pk p) (name p) (price p) q.

Definition set_price (d : Decimal.t) (p : t) : t :=
  mk (pk p) (name p) d (quantity p).

End Product.

(** [class Order(models.Model)].  The foreign key [product] is held the way
    the framework holds it: the key column [product_id] and, once the related
    instance has been assigned or loaded, a cached reference to it. *)
Module Order.

Record t : Type := mk {
  pk : option Z;
  product_id : option Z;
  product_cache : option positive;
  quantity : Z;
  total_price : option Decimal.t;
  confirmed : bool
}.

Record row : Type := mk_row {
  row_product_id : Z;
  row_quantity : Z;
  row_total_price : option Decimal.t;
  row_confirmed : bool
}.

(** [DecimalField(max_digits=10, decimal_places=2, blank=True, null=True)] *)
Definition max_digits : Z := 10.
Definition decimal_places : Z := 2.

Definition set_pk (k : Z) (o : t) : t :=
  mk (Some k) (product_id o) (product_cache o) (quantity o) (total_price o)
     (confirmed o).

Definition set_product_id (k : option Z) (o : t) : t :=
  mk (pk o) k (product_cache o) (quantity o) (total_price o) (confirmed o).

Definition set_product_cache (c : option positive) (o : t) : t :=
  mk (pk o) (product_id o) c (quantity o) (total_price o) (confirmed o).

Definition set_total_price (d : option Decimal.t) (o : t) : t :=
  mk (pk o) (product_id o) (product_cache o) (quantity o) d (confirmed o).

Definition set_confirmed (b : bool) (o : t) : t :=
  mk (pk o) (product_id o) (product_cache o) (quantity o) (total_price o) b.

End Order.

(** ** Program state, exceptions and the monad of the embedding *)

Record State : Type := mk_State {
  product_objs : gmap positive Product.t;
  order_objs : gmap positive Order.t;
  products_table : gmap Z Product.row;
  orders_table : gmap Z Order.row;
  stdout : list string
}.

Definition set_product_objs (h : gmap positive Product.t) (st : State) : State :=
  mk_State h (order_objs st) (products_table st) (orders_table st) (stdout st).

Definition set_order_objs (h : gmap positive Order.t) (st : State) : State :=
  mk_State (product_objs st) h (products_table st) (orders_table st) (stdout st).

Definition set_products_table (t : gmap Z Product.row) (st : State) : State :=
  mk_State (product_objs st) (order_objs st) t (orders_table st) (stdout st).

Definition set_orders_table (t : gmap Z Order.row) (st : State) : State :=
  mk_State (product_objs st) (order_objs st) (products_table st) t (stdout st).

Definition set_stdout (out : list string) (st : State) : State :=
  mk_State (product_objs st) (order_objs st) (products_table st)
           (orders_table st) out.

(** The exceptions the modelled code can raise.  [OutOfRange] is what the
    database gives for an integer a column cannot hold ([OverflowError] from
    the SQLite driver, [DataError] elsewhere); [DatabaseError] is what a
    forced update gives when it matched no row.  [NoSuchObject] stands for a
    location that holds no instance; Python references never dangle, so it
    does not arise from the states a program can reach. *)
Inductive Exn : Type :=
| RelatedObjectDoesNotExist
| DoesNotExist
| ValueError
| InvalidOperation
| IntegrityError
| OutOfRange
| DatabaseError
| NoSuchObject.

Inductive outcome (A : Type) : Type :=
| Returned (a : A)
| Raised (e : Exn).

Arguments Returned {A} a.
Arguments Raised {A} e.

(** A computation runs from a state to an outcome and the state it leaves
    behind; an exception keeps the effects made before it was raised. *)
Definition M (A : Type) : Type := State -> outcome A * State.

Global Instance M_ret : MRet M := fun A a st => (Returned a, st).

Global Instance M_bind : MBind M := fun A B f m st =>
  match m st with
  | (Returned a, st') => f a st'
  | (Raised e, st') => (Raised e, st')
  end.

Definition raise {A : Type} (e : Exn) : M A := fun st => (Raised e, st).

Definition gets {A : Type} (f : State -> A) : M A := fun st => (Returned (f st), st).

Definition modify (f : State -> State) : M unit := fun st => (Returned tt, f st).

Definition from_option {A : Type} (e : Exn) (x : option A) : M A :=
  match x with
  | Some a => mret a
  | None => raise e
  end.

(** ** The object-relational layer, as far as the two functions use it *)

(** Attribute access on an instance: read and write the object at a
    location. *)
Definition Order_get (self : positive) : M Order.t :=
  o ← gets (fun st => order_objs st !! self); from_option NoSuchObject o.

Definition Order_put (self : positive) (o : Order.t) : M unit :=
  modify (fun st => set_order_objs (<[self := o]> (order_objs st)) st).

Definition Product_get (l : positive) : M Product.t :=
  p ← gets (fun st => product_objs st !! l); from_option NoSuchObject p.

Definition Product_put (l : positive) (p : Product.t) : M unit :=
  modify (fun st => set_product_objs (<[l := p]> (product_objs st)) st).

(** A new Product instance built from a fetched row. *)
Definition Product_new (p : Product.t) : M positive :=
  fun st =>
    let l := fresh (dom (product_objs st)) in
    (Returned l, set_product_objs (<[l := p]> (product_objs st)) st).

(** [Product.objects.get(pk=k)], the query behind the lazy foreign key. *)
Definition Product_objects_get (k : Z) : M Product.row :=
  r ← gets (fun st => products_table st !! k); from_option DoesNotExist r.

(** [self.product], the forward foreign-key descriptor: the cached instance
    if there is one; otherwise the row named by [product_id] is fetched,
    wrapped in a new instance and cached on the order.  With no key at all
    the descriptor raises [RelatedObjectDoesNotExist]. *)
Definition Order_product (self : positive) : M positive :=
  o ← Order_get self;
  match Order.product_cache o with
  | Some l => mret l
  | None =>
      match Order.product_id o with
      | None => raise RelatedObjectDoesNotExist
      | Some k =>
          r ← Product_objects_get k;
          l ← Product_new (Product.of_row k r);
          Order_put self (Order.set_product_cache (Some l) o);;
          mret l
      end
  end.

(** [_prepare_related_fields_for_save]: a cached related instance that was
    never stored makes [save] raise [ValueError]; a missing key column is
    filled in from the cached instance; a cached instance whose key differs
    from the key column is dropped from the cache. *)
Definition prepare_related_fields_for_save (self : positive) : M unit :=
  o ← Order_get self;
  match Order.product_cache o with
  | None => mret tt
  | Some l =>
      p ← Product_get l;
      match Product.pk p with
      | None => raise ValueError
      | Some k =>
          let o1 :=
            match Order.product_id o with
            | None => Order.set_product_id (Some k) o
            | Some _ => o
            end in
          let o2 :=
            if decide (Order.product_id o1 = Some k) then o1
            else Order.set_product_cache None o1 in
          Order_put self o2
      end
  end.

(** [DecimalField.get_db_prep_save]: the value is quantized to
    [decimal_places] under a context of [max_digits] digits;
    [InvalidOperation] if it does not fit. *)
Definition total_price_db_prep (v : option Decimal.t) : M (option Decimal.t) :=
  match v with
  | None => mret None
  | Some d =>
      r ← from_option InvalidOperation
            (Decimal.quantize Order.max_digits Order.decimal_places d);
      mret (Some r)
  end.

(** The integers an integer column holds: a signed range whose upper end
    [max] depends on the database ([2^63 - 1] on SQLite, [2^31 - 1] for the
    integer columns of PostgreSQL).  It is a parameter of what follows. *)
Definition integer_in_range (max : N) (q : Z) : bool :=
  (- Z.of_N max - 1 <=? q) && (q <=? Z.of_N max).

(** Binding an integer to a statement: refused when the column cannot hold
    it. *)
Definition integer_bind (max : N) (q : Z) : M unit :=
  if integer_in_range max q then mret tt else raise OutOfRange.

(** The constraints the orders table declares, column by column:
    [product_id] is NOT NULL and references a row of the products table
    ([ForeignKey]); [quantity] is not negative ([PositiveIntegerField]). *)
Definition product_column_check (product_id : option Z) : M Z :=
  k ← from_option IntegrityError product_id;
  present ← gets (fun st => bool_decide (is_Some (products_table st !! k)));
  if (present : bool) then mret k else raise IntegrityError.

Definition quantity_column_check (quantity : Z) : M Z :=
  if 0 <=? quantity then mret quantity else raise IntegrityError.

(** The checks a whole new row passes: the quantity must fit the integer
    column, then the constraints of the table hold. *)
Definition orders_table_check (max : N) (product_id : option Z) (quantity : Z) : M Z :=
  integer_bind max quantity;;
  k ← from_option IntegrityError product_id;
  present ← gets (fun st => bool_decide (is_Some (products_table st !! k)));
  if (0 <=? quantity) && present then mret k else raise IntegrityError.

(** The arguments [models.Model.save] takes, which [Order.save] passes on as
    [*args, **kwargs]: [force_insert], [force_update] and [update_fields]
    ([None], or the names of the fields to write).  The [using] argument is
    left out: there is one database. *)
Record save_args : Type := mk_save_args {
  force_insert : bool;
  force_update : bool;
  update_fields : option (list string)
}.

(** The plain call [save()]. *)
Definition plain_save : save_args := mk_save_args false false None.

(** The names [update_fields] may use: the fields of [Order] other than its
    key, the foreign key under both of its names. *)
Definition Order_field_names : list string :=
  ["product"%string; "product_id"%string; "quantity"%string;
   "total_price"%string; "confirmed"%string].

Definition known_field (f : string) : bool :=
  existsb (String.eqb f) Order_field_names.

(** Whether a statement writes the column of one of [names]: every column
    when no [update_fields] were given, otherwise those it names. *)
Definition names_field (fs : option (list string)) (names : list string) : bool :=
  match fs with
  | None => true
  | Some l => existsb (fun f => existsb (String.eqb f) names) l
  end.

(** [force_update or update_fields]: the save must be an UPDATE. *)
Definition forced_update (a : save_args) : bool :=
  force_update a
  || match update_fields a with
     | Some (_ :: _) => true
     | _ => false
     end.

(** INSERT of the instance's row: the column values are prepared and
    checked; the row goes under the instance's key, which must be free, or
    under an unused key that the instance receives. *)
Definition insert_order (max : N) (self : positive) : M unit :=
  o ← Order_get self;
  total ← total_price_db_prep (Order.total_price o);
  k ← orders_table_check max (Order.product_id o) (Order.quantity o);
  let r := Order.mk_row k (Order.quantity o) total (Order.confirmed o) in
  match Order.pk o with
  | Some i =>
      taken ← gets (fun st => bool_decide (is_Some (orders_table st !! i)));
      if (taken : bool) then raise IntegrityError
      else modify (fun st => set_orders_table (<[i := r]> (orders_table st)) st)
  | None =>
      i ← gets (fun st => fresh (dom (orders_table st)));
      modify (fun st => set_orders_table (<[i := r]> (orders_table st)) st);;
      Order_put self (Order.set_pk i o)
  end.

(** UPDATE of the row under key [i], of the columns [fs] names: the values
    written are prepared and bound first; if a row is there, the constraints
    on the written columns are checked and the row is changed in those
    columns.  The result tells whether a row matched. *)
Definition update_order (max : N) (fs : option (list string)) (self : positive)
    (i : Z) : M bool :=
  o ← Order_get self;
  total ← (if names_field fs ["total_price"%string]
           then total_price_db_prep (Order.total_price o) else mret None);
  (if names_field fs ["quantity"%string]
   then integer_bind max (Order.quantity o) else mret tt);;
  old ← gets (fun st => orders_table st !! i);
  match old with
  | None => mret false
  | Some r0 =>
      k ← (if names_field fs ["product"%string; "product_id"%string]
           then product_column_check (Order.product_id o)
           else mret (Order.row_product_id r0));
      q ← (if names_field fs ["quantity"%string]
           then quantity_column_check (Order.quantity o)
           else mret (Order.row_quantity r0));
      let r :=
        Order.mk_row k q
          (if names_field fs ["total_price"%string]
           then total else Order.row_total_price r0)
          (if names_field fs ["confirmed"%string]
           then Order.confirmed o else Order.row_confirmed r0) in
      modify (fun st => set_orders_table (<[i := r]> (orders_table st)) st);;
      mret true
  end.

(** [_save_table]: an instance without a key is inserted, unless an update
    was forced; an instance with a key is updated, and inserted if no row
    matched, unless the insert or the update was forced. *)
Definition save_table (max : N) (a : save_args) (self : positive) : M unit :=
  o ← Order_get self;
  match Order.pk o with
  | None =>
      if forced_update a then raise ValueError else insert_order max self
  | Some i =>
      if force_insert a then insert_order max self
      else
        updated ← update_order max (update_fields a) self i;
        if (updated : bool) then mret tt
        else if forced_update a then raise DatabaseError
        else insert_order max self
  end.

(** [models.Model.save] once the relation has been prepared: refuse
    contradictory arguments, return at once for an empty [update_fields],
    refuse unknown field names, then write the row. *)
Definition save_after_prepare (max : N) (a : save_args) (self : positive) : M unit :=
  if force_insert a && forced_update a then raise ValueError
  else
    match update_fields a with
    | Some [] => mret tt
    | Some fs =>
        if forallb known_field fs then save_table max a self
        else raise ValueError
    | None => save_table max a self
    end.

(** [models.Model.save] on an Order, what [super().save( *args, **kwargs)]
    runs.  Nothing is written when a step raises. *)
Definition Model_save_Order_with (max : N) (a : save_args) (self : positive) : M unit :=
  prepare_related_fields_for_save self;;
  save_after_prepare max a self.

(** [print(s)]: one more line on standard output. *)
Definition print (s : string) : M unit :=
  modify (fun st => set_stdout (stdout st ++ [s]) st).

(** [str(n)] for a Python [int], as an f-string renders it. *)
Definition str_int (n : Z) : string := NilZero.string_of_int (Z.to_int n).

(** ** Proof automation for the layer *)

(** Projections of updated states. *)
Ltac simpl_state :=
  cbn [product_objs order_objs products_table orders_table stdout
       set_product_objs set_order_objs set_products_table set_orders_table
       set_stdout fst snd].

(** Unfold a computation down to matches on table and heap lookups. *)
Ltac unfold_orm :=
  unfold Model_save_Order_with, save_after_prepare,
    save_table, update_order,
    insert_order, prepare_related_fields_for_save,
    total_price_db_prep, orders_table_check, product_column_check,
    quantity_column_check, integer_bind, Order_product,
    Product_objects_get, Product_new, Order_get, Order_put, Product_get,
    Product_put, print, from_option, gets, modify, raise,
    mbind, M_bind, mret, M_ret;
  simpl_state.

(** Field projections of updated instances. *)
Ltac simpl_fields :=
  cbn [Order.pk Order.product_id Order.product_cache Order.quantity
       Order.total_price Order.confirmed Order.set_pk Order.set_product_id
       Order.set_product_cache Order.set_total_price Order.set_confirmed
       Product.pk Product.name Product.price Product.quantity Product.set_pk
       Product.set_quantity Product.set_price Product.to_row Product.of_row].

Tactic Notation "simpl_fields" "in" hyp(H) :=
  cbn [Order.pk Order.product_id Order.product_cache Order.quantity
       Order.total_price Order.confirmed Order.set_pk Order.set_product_id
       Order.set_product_cache Order.set_total_price Order.set_confirmed
       Product.pk Product.name Product.price Product.quantity Product.set_pk
       Product.set_quantity Product.set_price Product.to_row Product.of_row] in H.


Section Store.

(** [products/models.py] is not among the sources, so the constraints its
    fields declare on the products table (whether the storage layer refuses a
    negative [quantity], for instance) are not known; they are a parameter of
    the development: the rows the table admits. *)
Variable products_table_admits : Product.row -> bool.

(** The largest integer the quantity column of the orders table holds; it
    depends on the database, see [integer_in_range]. *)
Variable integer_column_max : N.

(** [product.save()], [models.Model.save] on a Product: the instance's field
    values are written under its key, or under a new key that the instance
    receives; a row the table does not admit is refused with
    [IntegrityError] and nothing is written. *)
Definition Model_save_Product (l : positive) : M unit :=
  p ← Product_get l;
  if products_table_admits (Product.to_row p) then
    match Product.pk p with
    | Some k =>
        modify (fun st =>
          set_products_table (<[k := Product.to_row p]> (products_table st)) st)
    | None =>
        k ← gets (fun st => fresh (dom (products_table st)));
        modify (fun st =>
          set_products_table (<[k := Product.to_row p]> (products_table st)) st);;
        Product_put l (Product.set_pk k p)
    end
  else raise IntegrityError.

(** ** The two functions of the repository *)

(** [orders/models.py], [Order.save]:
<<
    def save(self, *args, **kwargs):
        self.total_price = self.product.price * self.quantity
        super().save( *args, **kwargs)
>>
    [a] stands for the arguments passed on. *)
Definition Order_save_with (a : save_args) (self : positive) : M unit :=
  product ← Order_product self;
  p ← Product_get product;
  o ← Order_get self;
  Order_put self
    (Order.set_total_price
       (Some (Decimal.mul_int (Product.price p) (Order.quantity o))) o);;
  Model_save_Order_with integer_column_max a self.

(** The plain call [order.save()]. *)
Definition Order_save (self : positive) : M unit :=
  Order_save_with plain_save self.

(** [products/signals.py], the receiver of [order_confirmed]:
<<
    product = sender.product
    product.quantity -= sender.quantity
    product.save()
    print(f"Quantity updated for {product.name}. New quantity: {product.quantity}")
>> *)
Definition update_quantity_on_order_confirmation (sender : positive) : M unit :=
  product ← Order_product sender;
  p ← Product_get product;
  o ← Order_get sender;
  Product_put product
    (Product.set_quantity (Product.quantity p - Order.quantity o) p);;
  Model_save_Product product;;
  p' ← Product_get product;
  print ("Quantity updated for " ++ Product.name p' ++ ". New quantity: "
         ++ str_int (Product.quantity p')).

(** Modelled from the spec: [orders/signals.py], which declares the signal
    [order_confirmed], is not among the sources.  Delivering one notification
    for an order calls each subscribed receiver once with that order as
    [sender], synchronously and to completion; the receiver above is the only
    subscriber. *)
Definition order_confirmed_send (sender : positive) : M unit :=
  update_quantity_on_order_confirmation sender.

(** ** Notions the statements below are phrased with *)

(** The order at [self], with its [confirmed] flag set to [b]. *)
Definition with_confirmed (b : bool) (self : positive) (st : State) : State :=
  set_order_objs (alter (Order.set_confirmed b) self (order_objs st)) st.

(** The product instance at [l], with its price set to [d]. *)
Definition with_price (d : Decimal.t) (l : positive) (st : State) : State :=
  set_product_objs (alter (Product.set_price d) l (product_objs st)) st.

(** No row of the products table stands behind the order's product: neither
    behind the cached instance (never stored, or its row is gone) nor behind
    the key column. *)
Definition product_missing (st : State) (o : Order.t) : bool :=
  match Order.product_cache o with
  | Some l =>
      match product_objs st !! l with
      | Some p =>
          match Product.pk p with
          | Some k =>
              bool_decide (products_table st !! k = None)
              && match Order.product_id o with
                 | Some k' => bool_decide (products_table st !! k' = None)
                 | None => true
                 end
          | None => true
          end
      | None => false
      end
  | None =>
      match Order.product_id o with
      | Some k => bool_decide (products_table st !! k = None)
      | None => true
      end
  end.

(** The scenario of the spec: the stored product Widget, price 9.99, stock
    100, and a new order for three of them. *)
Definition widget : Product.t :=
  Product.mk (Some 1) "Widget" (Decimal.mk 999 (-2)) 100.

Definition widget_order : Order.t :=
  Order.mk None (Some 1) (Some 1%positive) 3 None false.

Definition widget_state : State :=
  mk_State {[ 1%positive := widget ]} {[ 1%positive := widget_order ]}
           {[ 1 := Product.to_row widget ]} ∅ [].

(** A products table that declares no constraint on its rows. *)
Definition admits_every_row (r : Product.row) : bool := true.

(** Modelled from the spec: [products/models.py] is not among the sources.
    The data model of the spec gives a Product a non-negative integer stock
    count, so the products table refuses a negative quantity. *)
Definition admits_stocked_rows (r : Product.row) : bool :=
  0 <=? Product.row_quantity r.

(** The integer column of SQLite, the default database: 64 bits, signed. *)
Definition sqlite_integer_max : N := (2 ^ 63 - 1)%N.

(** An order for more Widgets than are in stock. *)
Definition widget_bulk_order : Order.t :=
  Order.mk None (Some 1) (Some 1%positive) 103 None false.

Definition widget_bulk_state : State :=
  mk_State {[ 1%positive := widget ]} {[ 1%positive := widget_bulk_order ]}
           {[ 1 := Product.to_row widget ]} ∅ [].

(** A second product next to Widget. *)
Definition gadget : Product.t :=
  Product.mk (Some 2) "Gadget" (Decimal.mk 2450 (-2)) 40.

Definition two_products_state : State :=
  mk_State {[ 1%positive := widget; 2%positive := gadget ]}
           {[ 1%positive := widget_order ]}
           {[ 1 := Product.to_row widget; 2 := Product.to_row gadget ]} ∅ [].

(** The Widget order as an earlier save left it and a later request loads it
    again: stored, confirmed, its product not yet fetched. *)
Definition widget_order_loaded : Order.t :=
  Order.mk (Some 1) (Some 1) None 3 (Some (Decimal.mk 2997 (-2))) true.

Definition widget_loaded_state : State :=
  mk_State ∅ {[ 1%positive := widget_order_loaded ]}
           {[ 1 := Product.to_row widget ]}
           {[ 1 := Order.mk_row 1 3 (Some (Decimal.mk 2997 (-2))) true ]} [].



(** The Widget order after the Widget row has been deleted from the table:
    the instances are still in memory. *)
Definition widget_deleted_state : State :=
  mk_State {[ 1%positive := widget ]} {[ 1%positive := widget_order ]} ∅ ∅ [].

(** ** The rest of [orders/models.py] *)

(** [Order.__str__]:
<<
    def __str__(self):
        return f"{self.quantity} x {self.product.name}"
>> *)
Definition Order_str (self : positive) : M string :=
  o ← Order_get self;
  product ← Order_product self;
  p ← Product_get product;
  mret (str_int (Order.quantity o) ++ " x " ++ Product.name p)%string.


(** [product.delete()] under [on_delete=models.CASCADE] of [Order.product]:
    the order rows that reference the product are deleted with its row, and
    the deleted instance loses its key.  An instance that was never stored
    cannot be deleted. *)
Definition Product_delete (l : positive) : M unit :=
  p ← Product_get l;
  match Product.pk p with
  | None => raise ValueError
  | Some k =>
      modify (fun st =>
        set_orders_table
          (filter (fun kv => Order.row_product_id kv.2 <> k) (orders_table st)) st);;
      modify (fun st => set_products_table (delete k (products_table st)) st);;
      Product_put l
        (Product.mk None (Product.name p) (Product.price p) (Product.quantity p))
  end.


(** ** Well-formed stored orders *)

(** A stored order row refers to a stored product, its quantity is not
    negative and its total, if any, has two fractional digits and at most
    ten digits in all. *)
Definition order_row_ok (st : State) (row : Order.row) : Prop :=
  is_Some (products_table st !! Order.row_product_id row)
  /\ 0 <= Order.row_quantity row
  /\ forall t, Order.row_total_price row = Some t ->
       Decimal.exp t = - Order.decimal_places
       /\ Z.abs (Decimal.coef t) < 10 ^ Order.max_digits.

Definition orders_table_ok (st : State) : Prop :=
  forall i row, orders_table st !! i = Some row -> order_row_ok st row.

(** ** More scenarios *)


(** The same two orders, each holding its own instance of Widget, both
    fetched while the stock was 100. *)
Definition two_instances_state : State :=
  mk_State {[ 1%positive := widget; 2%positive := widget ]}
           {[ 1%positive := Order.mk (Some 1) (Some 1) (Some 1%positive) 3
                              (Some (Decimal.mk 2997 (-2))) true;
              2%positive := Order.mk (Some 2) (Some 1) (Some 2%positive) 5
                              (Some (Decimal.mk 4995 (-2))) true ]}
           {[ 1 := Product.to_row widget ]}
           {[ 1 := Order.mk_row 1 3 (Some (Decimal.mk 2997 (-2))) true;
              2 := Order.mk_row 1 5 (Some (Decimal.mk 4995 (-2))) true ]} [].

(** An order with a negative quantity and one whose total needs eleven
    digits. *)
Definition widget_negative_state : State :=
  set_order_objs
    {[ 1%positive := Order.mk None (Some 1) (Some 1%positive) (-3) None false ]}
    widget_state.

Definition widget_huge_state : State :=
  set_order_objs
    {[ 1%positive := Order.mk None (Some 1) (Some 1%positive) 100000000 None false ]}
    widget_state.


(** The stored Widget order after the price of Widget has gone up to 10.49
    and the caller has set [confirmed] on the instance: the row still holds
    the total 29.97 of the first save and the flag as it was stored. *)
Definition widget_repriced : Product.t :=
  Product.mk (Some 1) "Widget" (Decimal.mk 1049 (-2)) 100.

Definition widget_order_confirming : Order.t :=
  Order.mk (Some 1) (Some 1) (Some 1%positive) 3
    (Some (Decimal.mk 2997 (-2))) true.

Definition widget_repriced_state : State :=
  mk_State {[ 1%positive := widget_repriced ]}
           {[ 1%positive := widget_order_confirming ]}
           {[ 1 := Product.to_row widget_repriced ]}
           {[ 1 := Order.mk_row 1 3 (Some (Decimal.mk 2997 (-2))) false ]} [].


(** An order for 2^63 units of a product that costs nothing: the total
    fits its column, the quantity does not fit a 64-bit integer. *)
Definition widget_free : Product.t :=
  Product.mk (Some 1) "Widget" (Decimal.mk 0 (-2)) 100.

Definition widget_overflow_state : State :=
  mk_State {[ 1%positive := widget_free ]}
           {[ 1%positive :=
                Order.mk None (Some 1) (Some 1%positive) (2 ^ 63) None false ]}
           {[ 1 := Product.to_row widget_free ]} ∅ [].

(** * Facts

    ** Decimal arithmetic *)

Example decimal_widget_total :
  Decimal.mul_int (Decimal.mk 999 (-2)) 3 = Decimal.mk 2997 (-2).
Proof. reflexivity. Qed.

Example decimal_widget_stored :
  Decimal.quantize 10 2 (Decimal.mk 2997 (-2)) = Some (Decimal.mk 2997 (-2)).
Proof. reflexivity. Qed.

Example decimal_round_ties_to_even :
  Decimal.quantize 10 2 (Decimal.mk 29985 (-3)) = Some (Decimal.mk 2998 (-2))
  /\ Decimal.quantize 10 2 (Decimal.mk 29975 (-3)) = Some (Decimal.mk 2998 (-2)).
Proof. split; reflexivity. Qed.

Example decimal_too_many_digits :
  Decimal.quantize 10 2 (Decimal.mk 9999999999000 (-2)) = None.
Proof. reflexivity. Qed.

Example decimal_context_rounding :
  Decimal.mul_int (Decimal.mk 12345678901234567890123456789 (-28)) 1
  = Decimal.mk 1234567890123456789012345679 (-27).
Proof. reflexivity. Qed.

Lemma digits_go_bounds (fuel : nat) (n : Z) :
  0 < n -> n < 10 * 2 ^ Z.of_nat fuel ->
  1 <= Decimal.digits_go fuel n
  /\ 10 ^ (Decimal.digits_go fuel n - 1) <= n < 10 ^ Decimal.digits_go fuel n.
Proof.
  revert n. induction fuel as [|fuel IH]; intros n Hpos Hlt.
  - simpl in *. lia.
  - cbn [Decimal.digits_go]. destruct (Z.ltb_spec n 10) as [Hs|Hb].
    + simpl. lia.
    + assert (Hq : 0 < n / 10) by (apply Z.div_str_pos; lia).
      assert (Hn : n < 10 * 2 ^ Z.of_nat fuel * 2).
      { rewrite Nat2Z.inj_succ, Z.pow_succ_r in Hlt by lia. lia. }
      assert (Hq' : n / 10 < 10 * 2 ^ Z.of_nat fuel).
      { apply Z.div_lt_upper_bound; [lia|].
        assert (0 < 2 ^ Z.of_nat fuel) by (apply Z.pow_pos_nonneg; lia). lia. }
      destruct (IH _ Hq Hq') as (H1 & H2 & H3).
      set (d := Decimal.digits_go fuel (n / 10)) in *.
      replace (1 + d - 1) with (Z.succ (d - 1)) by lia.
      replace (1 + d) with (Z.succ d) by lia.
      rewrite !Z.pow_succ_r by lia.
      pose proof (Z.div_mod n 10 ltac:(lia)) as Hdm.
      pose proof (Z.mod_pos_bound n 10 ltac:(lia)) as Hmb.
      lia.
Qed.

Lemma digits_bounds (c : Z) :
  c <> 0 ->
  1 <= Decimal.digits c
  /\ 10 ^ (Decimal.digits c - 1) <= Z.abs c < 10 ^ Decimal.digits c.
Proof.
  intros Hc. unfold Decimal.digits. apply digits_go_bounds; [lia|].
  rewrite Z2Nat.id by apply Z.log2_nonneg.
  pose proof (Z.log2_spec (Z.abs c) ltac:(lia)) as [Hlo Hhi].
  rewrite Z.pow_succ_r in Hhi by apply Z.log2_nonneg. lia.
Qed.

Lemma digits_le_iff (c p : Z) :
  c <> 0 -> 0 <= p -> (Decimal.digits c <= p <-> Z.abs c < 10 ^ p).
Proof.
  intros Hc Hp. destruct (digits_bounds c Hc) as (H1 & H2 & H3). split.
  - intros Hle. eapply Z.lt_le_trans; [exact H3|].
    apply Z.pow_le_mono_r; lia.
  - intros Hlt. destruct (Z.le_gt_cases (Decimal.digits c) p) as [|Hgt]; [done|].
    exfalso. assert (10 ^ p <= 10 ^ (Decimal.digits c - 1)) by (apply Z.pow_le_mono_r; lia).
    lia.
Qed.










(** ** Running the object-relational layer *)

Lemma bind_returned {A B : Type} (m : M A) (f : A -> M B) (st st1 : State) (a : A) :
  m st = (Returned a, st1) -> (m ≫= f) st = f a st1.
Proof. intros H. unfold mbind, M_bind. by rewrite H. Qed.

Lemma bind_raised {A B : Type} (m : M A) (f : A -> M B) (st st1 : State) (e : Exn) :
  m st = (Raised e, st1) -> (m ≫= f) st = (Raised e, st1).
Proof. intros H. unfold mbind, M_bind. by rewrite H. Qed.

(** [self.product] with the related instance already cached. *)
Lemma Order_product_cached (st : State) (self l : positive) (o : Order.t) :
  order_objs st !! self = Some o ->
  Order.product_cache o = Some l ->
  Order_product self st = (Returned l, st).
Proof. intros Ho Hc. unfold_orm. by rewrite Ho, Hc. Qed.


(** How [self.product] can return. *)
Lemma Order_product_returned (st st1 : State) (self l : positive) :
  Order_product self st = (Returned l, st1) ->
  exists o,
    order_objs st !! self = Some o
    /\ ((Order.product_cache o = Some l /\ st1 = st)
        \/ (exists k r,
              Order.product_cache o = None
              /\ Order.product_id o = Some k
              /\ products_table st !! k = Some r
              /\ l = fresh (dom (product_objs st))
              /\ st1 = set_order_objs
                         (<[self := Order.set_product_cache (Some l) o]> (order_objs st))
                         (set_product_objs
                            (<[l := Product.of_row k r]> (product_objs st)) st))).
Proof.
  unfold_orm. destruct (order_objs st !! self) as [o|] eqn:Ho; [|done].
  destruct (Order.product_cache o) as [l'|] eqn:Hc.
  - intros [= <- <-]. exists o. auto.
  - destruct (Order.product_id o) as [k|] eqn:Hk; [|done].
    destruct (products_table st !! k) as [r|] eqn:Hr; [|done].
    intros [= <- <-]. exists o. split; [done|]. right. exists k, r. done.
Qed.

(** When [self.product] raises, nothing has changed. *)
Lemma Order_product_raised (st st1 : State) (self : positive) (e : Exn) :
  Order_product self st = (Raised e, st1) -> st1 = st.
Proof.
  unfold_orm. destruct (order_objs st !! self) as [o|]; [|by intros [= _ <-]].
  destruct (Order.product_cache o); [done|].
  destruct (Order.product_id o) as [k|]; [|by intros [= _ <-]].
  destruct (products_table st !! k); [done|by intros [= _ <-]].
Qed.

(** What evaluating [self.product] leaves in place: the tables, the output,
    every other order, every other product instance, and all of the order's
    fields; the order now caches the instance. *)
Lemma Order_product_frame (st st1 : State) (self l : positive) (o : Order.t) :
  order_objs st !! self = Some o ->
  Order_product self st = (Returned l, st1) ->
  products_table st1 = products_table st
  /\ orders_table st1 = orders_table st
  /\ stdout st1 = stdout st
  /\ order_objs st1 = <[self := Order.set_product_cache (Some l) o]> (order_objs st)
  /\ (forall l' q, product_objs st !! l' = Some q -> product_objs st1 !! l' = Some q)
  /\ (forall l', l' <> l -> product_objs st1 !! l' = product_objs st !! l').
Proof.
  intros Ho Hr. apply Order_product_returned in Hr as (o' & Ho' & Hcase).
  assert (o' = o) as -> by congruence.
  destruct Hcase as [[Hc ->]|(k & r & Hc & Hk & Hrow & Hl & ->)].
  - repeat split; try done.
    symmetry. apply insert_id. rewrite Ho. f_equal.
    destruct o; simpl in *; by subst.
  - simpl. repeat split; try done.
    + intros l' q Hq. rewrite lookup_insert_ne; [done|].
      intros <-. subst l.
      pose proof (is_fresh (dom (product_objs st))) as Hf.
      apply Hf, elem_of_dom. eauto.
    + intros l' Hne. by rewrite lookup_insert_ne.
Qed.

(** ** Running the receiver *)

(** The receiver, once [sender.product] has evaluated to the instance [l]
    holding [p]: the instance's quantity is lowered by the order's quantity,
    the instance is saved and the line is printed; if the products table
    refuses the row, the lowered quantity stays on the instance, nothing is
    written and nothing is printed. *)
Lemma receiver_run (st st1 : State) (sender l : positive) (o : Order.t)
    (p : Product.t) :
  order_objs st !! sender = Some o ->
  Order_product sender st = (Returned l, st1) ->
  product_objs st1 !! l = Some p ->
  let p1 := Product.set_quantity (Product.quantity p - Order.quantity o) p in
  let st2 := set_product_objs (<[l := p1]> (product_objs st1)) st1 in
  let line := ("Quantity updated for " ++ Product.name p ++ ". New quantity: "
               ++ str_int (Product.quantity p1))%string in
  update_quantity_on_order_confirmation sender st
  = if products_table_admits (Product.to_row p1) then
      match Product.pk p with
      | Some k =>
          (Returned tt,
           set_stdout (stdout st1 ++ [line])
             (set_products_table (<[k := Product.to_row p1]> (products_table st1)) st2))
      | None =>
          let k := fresh (dom (products_table st1)) in
          (Returned tt,
           set_stdout (stdout st1 ++ [line])
             (set_product_objs (<[l := Product.set_pk k p1]> (product_objs st2))
                (set_products_table (<[k := Product.to_row p1]> (products_table st1)) st2)))
      end
    else (Raised IntegrityError, st2).
Proof.
  intros Ho Hres Hp p1 st2 line.
  destruct (Order_product_frame _ _ _ _ _ Ho Hres) as (_ & _ & _ & Hobjs & _ & _).
  unfold update_quantity_on_order_confirmation.
  rewrite (bind_returned _ _ _ _ _ Hres).
  unfold Model_save_Product. unfold_orm.
  rewrite Hp, Hobjs, lookup_insert_eq. cbn [Order.quantity Order.set_product_cache].
  fold p1. rewrite lookup_insert_eq.
  destruct (products_table_admits (Product.to_row p1)); [|done].
  cbn [Product.pk Product.set_quantity p1].
  destruct (Product.pk p) as [k|] eqn:Hpk; simpl_state.
  - rewrite lookup_insert_eq. done.
  - rewrite lookup_insert_eq. done.
Qed.

(** The receiver stops where [sender.product] raises, having changed
    nothing. *)
Lemma receiver_unresolved (st st1 : State) (sender : positive) (e : Exn) :
  Order_product sender st = (Raised e, st1) ->
  update_quantity_on_order_confirmation sender st = (Raised e, st).
Proof.
  intros Hres. unfold update_quantity_on_order_confirmation.
  rewrite (bind_raised _ _ _ _ _ Hres).
  by rewrite (Order_product_raised _ _ _ _ Hres).
Qed.

(** A cached reference to no instance at all stops the receiver before any
    effect. *)
Lemma receiver_dangling (st st1 : State) (sender l : positive) :
  Order_product sender st = (Returned l, st1) ->
  product_objs st1 !! l = None ->
  update_quantity_on_order_confirmation sender st = (Raised NoSuchObject, st1).
Proof.
  intros Hres Hp. unfold update_quantity_on_order_confirmation.
  rewrite (bind_returned _ _ _ _ _ Hres). unfold_orm. by rewrite Hp.
Qed.

(** ** Running [Order.save] *)

(** [Order.save] with any arguments, once [self.product] has evaluated to
    the instance [l] holding [p]: the total is assigned first, then the
    generic save prepares the relation and goes on with the arguments.
    [kk] is the key the row refers to, [o3] the instance as the preparation
    leaves it. *)
Lemma Order_save_with_run (a : save_args) (st st1 : State) (self l : positive)
    (o : Order.t) (p : Product.t) :
  order_objs st !! self = Some o ->
  Order_product self st = (Returned l, st1) ->
  product_objs st1 !! l = Some p ->
  let total := Decimal.mul_int (Product.price p) (Order.quantity o) in
  let o1 := Order.set_total_price (Some total) (Order.set_product_cache (Some l) o) in
  let st2 := set_order_objs (<[self := o1]> (order_objs st1)) st1 in
  Order_save_with a self st
  = match Product.pk p with
    | None => (Raised ValueError, st2)
    | Some k =>
        let kk := default k (Order.product_id o) in
        let o2 := Order.set_product_id (Some kk) o1 in
        let o3 := if decide (kk = k) then o2 else Order.set_product_cache None o2 in
        let st3 := set_order_objs (<[self := o3]> (order_objs st1)) st1 in
        save_after_prepare integer_column_max a self st3
    end.
Proof.
  intros Ho Hres Hp total o1 st2.
  destruct (Order_product_frame _ _ _ _ _ Ho Hres) as (_ & _ & _ & Hobjs & _ & _).
  assert (Hself : order_objs st1 !! self = Some (Order.set_product_cache (Some l) o))
    by (by rewrite Hobjs, lookup_insert_eq).
  clear Hobjs.
  unfold Order_save_with. rewrite (bind_returned _ _ _ _ _ Hres).
  unfold Model_save_Order_with, prepare_related_fields_for_save, Order_get,
    Order_put, Product_get, from_option, gets, modify, raise, mbind, M_bind,
    mret, M_ret.
  simpl_state. rewrite Hp, Hself, !lookup_insert_eq. simpl_fields.
  fold total. simpl_state. rewrite Hp, ?insert_insert_eq.
  destruct (Product.pk p) as [k|] eqn:Hpk; [|done].
  simpl_state. rewrite ?insert_insert_eq.
  f_equal. unfold set_order_objs. simpl_state. f_equal. f_equal. subst o1.
  destruct o as [opk [k'|] oc oq ot ocf]; cbn;
    repeat case_decide; simplify_eq; done.
Qed.

(** The generic save with no arguments, on an instance whose total and key
    column are set: the total is prepared for its column, the quantity is
    bound, the constraints of the table are checked and the row is written,
    under the instance's key or under a new one. *)
Lemma save_plain_run (max : N) (s : State) (self : positive) (o : Order.t)
    (total : Decimal.t) (kk : Z) :
  order_objs s !! self = Some o ->
  Order.total_price o = Some total ->
  Order.product_id o = Some kk ->
  save_after_prepare max plain_save self s
  = match Decimal.quantize Order.max_digits Order.decimal_places total with
    | None => (Raised InvalidOperation, s)
    | Some t =>
        if integer_in_range max (Order.quantity o) then
          if (0 <=? Order.quantity o)
             && bool_decide (is_Some (products_table s !! kk))
          then
            let r := Order.mk_row kk (Order.quantity o) (Some t) (Order.confirmed o) in
            match Order.pk o with
            | Some i =>
                (Returned tt, set_orders_table (<[i := r]> (orders_table s)) s)
            | None =>
                let i := fresh (dom (orders_table s)) in
                (Returned tt,
                 set_order_objs (<[self := Order.set_pk i o]> (order_objs s))
                   (set_orders_table (<[i := r]> (orders_table s)) s))
            end
          else (Raised IntegrityError, s)
        else (Raised OutOfRange, s)
    end.
Proof.
  intros Ho Ht Hk. unfold_orm. cbn [plain_save force_insert force_update
    update_fields forced_update names_field orb andb].
  rewrite Ho. simpl_state.
  destruct (Order.pk o) as [i|] eqn:Hi.
  - rewrite Ho, Ht, Hk. simpl_state.
    destruct (Decimal.quantize _ _ total) as [t|] eqn:Hq; [|done].
    destruct (integer_in_range max (Order.quantity o)) eqn:Hr; [|done].
    simpl_state.
    destruct (bool_decide (is_Some (products_table s !! kk))) eqn:Hrow;
      destruct (0 <=? Order.quantity o) eqn:Hnn;
      destruct (orders_table s !! i) as [r0|] eqn:Hold; simpl_state;
      rewrite ?Ho, ?Ht, ?Hk, ?Hi, ?Hq; simpl_state;
      rewrite ?Hr, ?Hnn; simpl_state; rewrite ?Hrow, ?Hold; try done;
      cbn; by rewrite Hold.
  - rewrite Ho, Ht, Hk, Hi. simpl_state.
    destruct (Decimal.quantize _ _ total) as [t|]; [|done].
    destruct (integer_in_range max (Order.quantity o)); [|done].
    simpl_state.
    by destruct ((0 <=? Order.quantity o) && _).
Qed.

(** The plain call [order.save()], once [self.product] has evaluated to the
    instance [l] holding [p]. *)
Lemma Order_save_run (st st1 : State) (self l : positive) (o : Order.t)
    (p : Product.t) :
  order_objs st !! self = Some o ->
  Order_product self st = (Returned l, st1) ->
  product_objs st1 !! l = Some p ->
  let total := Decimal.mul_int (Product.price p) (Order.quantity o) in
  let o1 := Order.set_total_price (Some total) (Order.set_product_cache (Some l) o) in
  let st2 := set_order_objs (<[self := o1]> (order_objs st1)) st1 in
  Order_save self st
  = match Product.pk p with
    | None => (Raised ValueError, st2)
    | Some k =>
        let kk := default k (Order.product_id o) in
        let o2 := Order.set_product_id (Some kk) o1 in
        let o3 := if decide (kk = k) then o2 else Order.set_product_cache None o2 in
        let st3 := set_order_objs (<[self := o3]> (order_objs st1)) st1 in
        match Decimal.quantize Order.max_digits Order.decimal_places total with
        | None => (Raised InvalidOperation, st3)
        | Some t =>
            if integer_in_range integer_column_max (Order.quantity o) then
              if (0 <=? Order.quantity o)
                 && bool_decide (is_Some (products_table st1 !! kk))
              then
                let r := Order.mk_row kk (Order.quantity o) (Some t) (Order.confirmed o) in
                match Order.pk o with
                | Some i =>
                    (Returned tt,
                     set_orders_table (<[i := r]> (orders_table st1)) st3)
                | None =>
                    let i := fresh (dom (orders_table st1)) in
                    (Returned tt,
                     set_order_objs (<[self := Order.set_pk i o3]> (order_objs st1))
                       (set_orders_table (<[i := r]> (orders_table st1)) st1))
                end
              else (Raised IntegrityError, st3)
            else (Raised OutOfRange, st3)
        end
    end.
Proof.
  intros Ho Hres Hp total o1 st2. unfold Order_save.
  rewrite (Order_save_with_run _ _ _ _ _ _ _ Ho Hres Hp). cbv zeta.
  fold total. fold o1. fold st2.
  destruct (Product.pk p) as [k|] eqn:Hpk; [|done].
  set (kk := default k (Order.product_id o)).
  set (o3 := if decide (kk = k) then _ else _).
  assert (Hq : Order.quantity o3 = Order.quantity o) by (subst o3; by case_decide).
  assert (Ht : Order.total_price o3 = Some total) by (subst o3; by case_decide).
  assert (Hk : Order.product_id o3 = Some kk) by (subst o3; by case_decide).
  assert (Hc : Order.confirmed o3 = Order.confirmed o) by (subst o3; by case_decide).
  assert (Hi : Order.pk o3 = Order.pk o) by (subst o3; by case_decide).
  rewrite (save_plain_run _ _ self o3 total kk);
    [|by (simpl_state; rewrite lookup_insert_eq)|done|done].
  rewrite Hq, Hc, Hi. simpl_state.
  destruct (Decimal.quantize _ _ total) as [t|]; [|done].
  destruct (integer_in_range _ _); [|done].
  destruct (_ && _); [|done].
  destruct (Order.pk o) as [i|]; [done|].
  cbv zeta. unfold set_order_objs, set_orders_table. simpl_state.
  by rewrite insert_insert_eq.
Qed.

(** ** The generic save under any arguments *)







(** [Order.save] stops where [self.product] raises, having changed
    nothing, whatever its arguments. *)
Lemma Order_save_with_unresolved (a : save_args) (st st1 : State)
    (self : positive) (e : Exn) :
  Order_product self st = (Raised e, st1) ->
  Order_save_with a self st = (Raised e, st).
Proof.
  intros Hres. unfold Order_save_with. rewrite (bind_raised _ _ _ _ _ Hres).
  by rewrite (Order_product_raised _ _ _ _ Hres).
Qed.

Lemma Order_save_unresolved (st st1 : State) (self : positive) (e : Exn) :
  Order_product self st = (Raised e, st1) ->
  Order_save self st = (Raised e, st).
Proof. apply Order_save_with_unresolved. Qed.

Lemma Order_save_with_dangling (a : save_args) (st st1 : State)
    (self l : positive) :
  Order_product self st = (Returned l, st1) ->
  product_objs st1 !! l = None ->
  Order_save_with a self st = (Raised NoSuchObject, st1).
Proof.
  intros Hres Hp. unfold Order_save_with.
  rewrite (bind_returned _ _ _ _ _ Hres).
  unfold Product_get, from_option, gets, raise, mbind, M_bind.
  by rewrite Hp.
Qed.

Lemma Order_save_dangling (st st1 : State) (self l : positive) :
  Order_product self st = (Returned l, st1) ->
  product_objs st1 !! l = None ->
  Order_save self st = (Raised NoSuchObject, st1).
Proof. apply Order_save_with_dangling. Qed.

(** ** The [confirmed] flag and the foreign key *)

Lemma with_confirmed_absent (b : bool) (self : positive) (st : State) :
  order_objs st !! self = None -> with_confirmed b self st = st.
Proof.
  intros Ho. unfold with_confirmed. destruct st as [ps os pt ot out].
  unfold set_order_objs. simpl in *. f_equal. apply map_eq. intros i.
  rewrite lookup_alter. case_decide; [|done]. subst. by rewrite Ho.
Qed.

Lemma with_confirmed_lookup (b : bool) (self : positive) (st : State) (o : Order.t) :
  order_objs st !! self = Some o ->
  order_objs (with_confirmed b self st) !! self = Some (Order.set_confirmed b o).
Proof. intros Ho. unfold with_confirmed. simpl. by rewrite lookup_alter_eq, Ho. Qed.

(** Evaluating [self.product] does not look at the flag. *)
Lemma Order_product_with_confirmed (b : bool) (self : positive) (st : State) :
  Order_product self (with_confirmed b self st)
  = let '(r, st1) := Order_product self st in (r, with_confirmed b self st1).
Proof.
  destruct (order_objs st !! self) as [o|] eqn:Ho.
  - pose proof (with_confirmed_lookup b _ _ _ Ho) as Hb.
    unfold Order_product at 1 2. unfold_orm. rewrite Hb, Ho. simpl_fields.
    destruct (Order.product_cache o) as [l|]; [done|].
    destruct (Order.product_id o) as [k|]; [|done].
    unfold with_confirmed. simpl_state.
    destruct (products_table st !! k) as [r|]; [|done].
    f_equal. unfold set_order_objs, set_product_objs. simpl_state. f_equal.
    by rewrite insert_alter_eq, alter_insert_eq.
  - rewrite (with_confirmed_absent _ _ _ Ho).
    unfold Order_product. unfold_orm. rewrite Ho.
    by rewrite (with_confirmed_absent _ _ _ Ho).
Qed.

(** The receiver commutes with setting the flag of its sender. *)
Lemma receiver_with_confirmed (b : bool) (sender : positive) (st : State) :
  update_quantity_on_order_confirmation sender (with_confirmed b sender st)
  = let '(r, st') := update_quantity_on_order_confirmation sender st in
    (r, with_confirmed b sender st').
Proof.
  pose proof (Order_product_with_confirmed b sender st) as Hcomm.
  destruct (Order_product sender st) as [[l|e] st1] eqn:Hres.
  - destruct (Order_product_returned _ _ _ _ Hres) as (o & Ho & _).
    pose proof (with_confirmed_lookup b _ _ _ Ho) as Hob.
    destruct (product_objs st1 !! l) as [p|] eqn:Hp.
    + assert (Hpb : product_objs (with_confirmed b sender st1) !! l = Some p)
        by done.
      rewrite (receiver_run _ _ _ _ _ _ Hob Hcomm Hpb).
      rewrite (receiver_run _ _ _ _ _ _ Ho Hres Hp).
      simpl. destruct (products_table_admits _); [destruct (Product.pk p)|]; done.
    + assert (Hpb : product_objs (with_confirmed b sender st1) !! l = None)
        by done.
      rewrite (receiver_dangling _ _ _ _ Hcomm Hpb).
      by rewrite (receiver_dangling _ _ _ _ Hres Hp).
  - rewrite (receiver_unresolved _ _ _ _ Hcomm).
    by rewrite (receiver_unresolved _ _ _ _ Hres).
Qed.

(** On a products table that refuses the row, the receiver stops at
    [product.save()]: the lowered quantity stays on the instance, the table
    and the output are what they were. *)
Lemma receiver_refused (st st1 : State) (sender l : positive) (o : Order.t)
    (p : Product.t) :
  order_objs st !! sender = Some o ->
  Order_product sender st = (Returned l, st1) ->
  product_objs st1 !! l = Some p ->
  products_table_admits
    (Product.to_row
       (Product.set_quantity (Product.quantity p - Order.quantity o) p)) = false ->
  exists st',
    update_quantity_on_order_confirmation sender st = (Raised IntegrityError, st')
    /\ product_objs st' !! l
       = Some (Product.set_quantity (Product.quantity p - Order.quantity o) p)
    /\ products_table st' = products_table st
    /\ stdout st' = stdout st.
Proof.
  intros Ho Hres Hp Hadm.
  destruct (Order_product_frame _ _ _ _ _ Ho Hres) as (Hpt & _ & Hout & _).
  rewrite (receiver_run _ _ _ _ _ _ Ho Hres Hp). simpl. rewrite Hadm.
  eexists. split; [done|]. simpl_state. by rewrite lookup_insert_eq.
Qed.

(** The only way [Order.save] returns: the product resolves to a stored
    instance, the row the order points to exists, the quantity is not
    negative and fits its column, and the total fits the column. *)
Lemma Order_save_returned (st st' : State) (self : positive) :
  Order_save self st = (Returned tt, st') ->
  exists (o : Order.t) (l : positive) (st1 : State) (p : Product.t) (k : Z)
         (t : Decimal.t),
    order_objs st !! self = Some o
    /\ Order_product self st = (Returned l, st1)
    /\ product_objs st1 !! l = Some p
    /\ Product.pk p = Some k
    /\ is_Some (products_table st !! default k (Order.product_id o))
    /\ 0 <= Order.quantity o
    /\ integer_in_range integer_column_max (Order.quantity o) = true
    /\ Decimal.quantize Order.max_digits Order.decimal_places
         (Decimal.mul_int (Product.price p) (Order.quantity o)) = Some t.
Proof.
  intros Hrun.
  destruct (Order_product self st) as [[l|e] st1] eqn:Hres.
  2:{ by rewrite (Order_save_unresolved _ _ _ _ Hres) in Hrun. }
  destruct (Order_product_returned _ _ _ _ Hres) as (o & Ho & _).
  destruct (Order_product_frame _ _ _ _ _ Ho Hres) as (Hpt & _).
  destruct (product_objs st1 !! l) as [p|] eqn:Hp.
  2:{ by rewrite (Order_save_dangling _ _ _ _ Hres Hp) in Hrun. }
  rewrite (Order_save_run _ _ _ _ _ _ Ho Hres Hp) in Hrun. cbv zeta in Hrun.
  destruct (Product.pk p) as [k|] eqn:Hpk; [|done].
  destruct (Decimal.quantize _ _ _) as [t|] eqn:Hq; [|done].
  destruct (integer_in_range _ _) eqn:Hin; [|done].
  destruct (Z.leb_spec 0 (Order.quantity o)) as [Hnn|]; [|done].
  rewrite Hpt in Hrun. simpl in Hrun.
  case_bool_decide as Hrow; [|done].
  exists o, l, st1, p, k, t. done.
Qed.

End Store.

(** * What the specification states

    ** [Order.save] *)






(** C8. Saving an order whose product is missing or deleted fails: the
    save raises, the exception is the outcome the caller of [save] receives,
    and nothing has been persisted, the two tables are what they were. *)
Theorem Order_save_missing_product
    (qmax : N) (st : State) (self : positive) (o : Order.t) :
  order_objs st !! self = Some o ->
  product_missing st o = true ->
  exists (e : Exn) (st' : State),
    Order_save qmax self st = (Raised e, st')
    /\ products_table st' = products_table st
    /\ orders_table st' = orders_table st.
Proof.
  intros Ho Hmiss. unfold product_missing in Hmiss.
  destruct (Order.product_cache o) as [l|] eqn:Hc.
  - destruct (product_objs st !! l) as [p|] eqn:Hp; [|done].
    pose proof (Order_product_cached _ _ _ _ Ho Hc) as Hres.
    rewrite (Order_save_run qmax _ _ _ _ _ _ Ho Hres Hp). cbv zeta.
    destruct (Product.pk p) as [k|] eqn:Hpk; [|by eexists _, _].
    apply andb_prop in Hmiss as [Hk Hk'].
    apply bool_decide_eq_true in Hk.
    assert (Hkk : products_table st !! default k (Order.product_id o) = None).
    { destruct (Order.product_id o) as [k'|]; simpl; [|done].
      by apply bool_decide_eq_true in Hk'. }
    destruct (Decimal.quantize _ _ _); [|by eexists _, _].
    rewrite Hkk, (bool_decide_false (is_Some None)) by (by intros [? ?]).
    rewrite andb_false_r. destruct (integer_in_range _ _); by eexists _, _.
  - assert (Hres : exists e, Order_product self st = (Raised e, st)).
    { unfold_orm. rewrite Ho, Hc.
      destruct (Order.product_id o) as [k|]; [|by eexists].
      apply bool_decide_eq_true in Hmiss. rewrite Hmiss. by eexists. }
    destruct Hres as [e Hres].
    rewrite (Order_save_unresolved qmax _ _ _ _ Hres). by eexists _, _.
Qed.

Lemma Order_save_missing_product_widget :
  order_objs widget_deleted_state !! 1%positive = Some widget_order
  /\ product_missing widget_deleted_state widget_order = true
  /\ exists (e : Exn) (st' : State),
       Order_save sqlite_integer_max 1 widget_deleted_state = (Raised e, st')
       /\ products_table st' = products_table widget_deleted_state
       /\ orders_table st' = orders_table widget_deleted_state.
Proof.
  assert (H1 : order_objs widget_deleted_state !! 1%positive = Some widget_order)
    by reflexivity.
  assert (H2 : product_missing widget_deleted_state widget_order = true)
    by reflexivity.
  repeat split; try assumption.
  exact (Order_save_missing_product sqlite_integer_max widget_deleted_state 1
           widget_order H1 H2).
Defined.

(** ** The receiver of [order_confirmed] *)



(** C3. After the receiver has run for a notification, exactly one line has
    been added to the output, and it reads
    "Quantity updated for {product_name}. New quantity: {new_quantity}" with
    the name of the order's product and that product's quantity after the
    decrement.  In the Widget scenario (stock 100, order quantity 3) the
    stock becomes 97 and the line is
    "Quantity updated for Widget. New quantity: 97". *)
Theorem confirmation_prints_line
    (admits : Product.row -> bool) (st st1 : State) (sender l : positive)
    (o : Order.t) (p : Product.t) :
  order_objs st !! sender = Some o ->
  Order_product sender st = (Returned l, st1) ->
  product_objs st1 !! l = Some p ->
  admits (Product.to_row
            (Product.set_quantity (Product.quantity p - Order.quantity o) p)) = true ->
  exists (st' : State) (p' : Product.t),
    update_quantity_on_order_confirmation admits sender st = (Returned tt, st')
    /\ product_objs st' !! l = Some p'
    /\ Product.name p' = Product.name p
    /\ Product.quantity p' = Product.quantity p - Order.quantity o
    /\ stdout st'
       = stdout st
         ++ [("Quantity updated for " ++ Product.name p ++ ". New quantity: "
              ++ str_int (Product.quantity p - Order.quantity o))%string].
Proof.
  intros Ho Hres Hp Hadm.
  destruct (Order_product_frame _ _ _ _ _ Ho Hres) as (_ & _ & Hout & _).
  rewrite (receiver_run admits _ _ _ _ _ _ Ho Hres Hp). simpl. rewrite Hadm.
  destruct (Product.pk p) as [k|]; eexists _, _; (split; [done|]);
    simpl_state; rewrite !lookup_insert_eq, Hout; done.
Qed.

Lemma confirmation_prints_line_widget :
  order_objs widget_state !! 1%positive = Some widget_order
  /\ Order_product 1 widget_state = (Returned 1%positive, widget_state)
  /\ product_objs widget_state !! 1%positive = Some widget
  /\ admits_every_row (Product.mk_row "Widget" (Decimal.mk 999 (-2)) 97) = true
  /\ exists (st' : State) (p' : Product.t),
       update_quantity_on_order_confirmation admits_every_row 1 widget_state
       = (Returned tt, st')
       /\ product_objs st' !! 1%positive = Some p'
       /\ Product.name p' = "Widget"%string
       /\ Product.quantity p' = 97
       /\ stdout st' = ["Quantity updated for Widget. New quantity: 97"%string].
Proof.
  assert (H1 : order_objs widget_state !! 1%positive = Some widget_order)
    by reflexivity.
  assert (H2 : Order_product 1 widget_state = (Returned 1%positive, widget_state))
    by reflexivity.
  assert (H3 : product_objs widget_state !! 1%positive = Some widget)
    by reflexivity.
  assert (H4 : admits_every_row (Product.mk_row "Widget" (Decimal.mk 999 (-2)) 97)
               = true) by reflexivity.
  repeat split; try assumption.
  exact (confirmation_prints_line admits_every_row widget_state widget_state
           1 1 widget_order widget H1 H2 H3 H4).
Defined.



(** C5. Handling a notification for an order that references product P
    leaves every other product as it was, whatever the outcome: every product
    instance other than the one [sender.product] evaluates to, and every row
    of the products table under a key other than P's, is unchanged in all of
    its fields. *)
Theorem confirmation_leaves_other_products
    (admits : Product.row -> bool) (st st1 st' : State) (sender l : positive)
    (r : outcome unit) :
  Order_product sender st = (Returned l, st1) ->
  update_quantity_on_order_confirmation admits sender st = (r, st') ->
  (forall l', l' <> l -> product_objs st' !! l' = product_objs st !! l')
  /\ (forall k',
        Product.pk <$> product_objs st' !! l <> Some (Some k') ->
        products_table st' !! k' = products_table st !! k').
Proof.
  intros Hres Hrun.
  destruct (Order_product_returned _ _ _ _ Hres) as (o & Ho & _).
  destruct (Order_product_frame _ _ _ _ _ Ho Hres) as (Hpt & _ & _ & _ & _ & Hother).
  destruct (product_objs st1 !! l) as [p|] eqn:Hp.
  - rewrite (receiver_run admits _ _ _ _ _ _ Ho Hres Hp) in Hrun. simpl in Hrun.
    destruct (admits _).
    + destruct (Product.pk p) as [k|] eqn:Hpk; injection Hrun as <- <-;
        simpl_state; rewrite !lookup_insert_eq; simpl_fields; rewrite ?Hpk; split.
      * intros l' Hl'. rewrite lookup_insert_ne by done. by apply Hother.
      * intros k' Hk'. rewrite lookup_insert_ne; [by rewrite Hpt|].
        intros ->. apply Hk'. simpl. by rewrite Hpk.
      * intros l' Hl'. rewrite !lookup_insert_ne by done. by apply Hother.
      * intros k' Hk'. rewrite lookup_insert_ne; [by rewrite Hpt|].
        intros Hk. apply Hk'. simpl. by rewrite Hk.
    + injection Hrun as <- <-. simpl_state. split.
      * intros l' Hl'. rewrite lookup_insert_ne by done. by apply Hother.
      * intros k' _. by rewrite Hpt.
  - rewrite (receiver_dangling admits _ _ _ _ Hres Hp) in Hrun.
    injection Hrun as <- <-. split; [done|]. intros k' _. by rewrite Hpt.
Qed.

Lemma confirmation_leaves_other_products_gadget :
  Order_product 1 two_products_state = (Returned 1%positive, two_products_state)
  /\ (exists st',
        update_quantity_on_order_confirmation admits_every_row 1 two_products_state
        = (Returned tt, st')
        /\ product_objs st' !! 2%positive = Some gadget
        /\ products_table st' !! 2 = Some (Product.to_row gadget)).
Proof.
  assert (H1 : Order_product 1 two_products_state
               = (Returned 1%positive, two_products_state)) by reflexivity.
  split; [exact H1|].
  eexists. split; [reflexivity|].
  pose proof (confirmation_leaves_other_products admits_every_row
                two_products_state two_products_state _ 1 1 (Returned tt) H1
                eq_refl) as [Hobj Hrow].
  split.
  - rewrite (Hobj 2%positive); [reflexivity|discriminate].
  - rewrite (Hrow 2); [reflexivity|]. vm_compute. discriminate.
Defined.

(** An order for 103 Widgets with 100 in stock, on a products table that
    holds the non-negative stock count of the data model: the delivery
    raises the storage error, the stored quantity is still 100 and nothing
    is printed; the decrement is not persisted. *)
Lemma confirmation_underflow_refused_by_table :
  let run :=
    update_quantity_on_order_confirmation admits_stocked_rows 1 widget_bulk_state in
  run.1 = Raised IntegrityError
  /\ Product.quantity <$> product_objs run.2 !! 1%positive = Some (-3)
  /\ products_table run.2 !! 1
     = Some (Product.mk_row "Widget" (Decimal.mk 999 (-2)) 100)
  /\ stdout run.2 = [].
Proof. vm_compute. repeat split. Qed.

(** C6, as amended.  Nothing in the receiver guards the stock against
    underflow: for an order whose quantity exceeds the product's quantity,
    the receiver still lowers the instance's quantity, to a negative number,
    and hands it to [product.save()] as it is; it neither rejects nor clamps
    the update.  What is stored is decided by the products table: where the
    table admits the row, the delivery returns and the stored quantity is
    that negative number; where the table refuses it, the delivery raises
    [IntegrityError], the table and the output are what they were, and only
    the instance carries the negative quantity. *)
Theorem confirmation_underflow_left_to_table
    (admits : Product.row -> bool) (st st1 : State) (sender l : positive)
    (o : Order.t) (p : Product.t) :
  order_objs st !! sender = Some o ->
  Order_product sender st = (Returned l, st1) ->
  product_objs st1 !! l = Some p ->
  Product.quantity p < Order.quantity o ->
  let lowered :=
    Product.set_quantity (Product.quantity p - Order.quantity o) p in
  exists (r : outcome unit) (st' : State) (p' : Product.t),
    update_quantity_on_order_confirmation admits sender st = (r, st')
    /\ product_objs st' !! l = Some p'
    /\ Product.quantity p' = Product.quantity p - Order.quantity o
    /\ Product.quantity p' < 0
    /\ (admits (Product.to_row lowered) = true ->
        r = Returned tt
        /\ exists (k : Z) (row : Product.row),
             Product.pk p' = Some k
             /\ products_table st' !! k = Some row
             /\ Product.row_quantity row = Product.quantity p - Order.quantity o
             /\ Product.row_quantity row < 0)
    /\ (admits (Product.to_row lowered) = false ->
        r = Raised IntegrityError
        /\ products_table st' = products_table st
        /\ stdout st' = stdout st).
Proof.
  intros Ho Hres Hp Hlt lowered.
  destruct (Order_product_frame _ _ _ _ _ Ho Hres) as (Hpt & _ & Hout & _).
  rewrite (receiver_run admits _ _ _ _ _ _ Ho Hres Hp). simpl.
  fold lowered.
  destruct (admits (Product.to_row lowered)) eqn:Hadm.
  - destruct (Product.pk p) as [k|] eqn:Hpk.
    + eexists _, _, lowered. split; [done|]. simpl_state.
      rewrite !lookup_insert_eq. split; [done|]. split; [done|].
      split; [simpl; lia|]. split; [|done]. intros _. split; [done|].
      exists k, (Product.to_row lowered). rewrite lookup_insert_eq.
      repeat split; try done. simpl. lia.
    + eexists _, _, (Product.set_pk _ lowered). split; [done|]. simpl_state.
      rewrite !lookup_insert_eq. split; [done|]. split; [done|].
      split; [simpl; lia|]. split; [|done]. intros _. split; [done|].
      eexists _, (Product.to_row lowered). rewrite lookup_insert_eq.
      repeat split; try done. simpl. lia.
  - eexists _, _, lowered. split; [done|]. simpl_state.
    rewrite lookup_insert_eq. split; [done|]. split; [done|].
    split; [simpl; lia|]. split; [done|]. intros _. done.
Qed.

Lemma confirmation_underflow_left_to_table_widget :
  order_objs widget_bulk_state !! 1%positive = Some widget_bulk_order
  /\ Order_product 1 widget_bulk_state = (Returned 1%positive, widget_bulk_state)
  /\ product_objs widget_bulk_state !! 1%positive = Some widget
  /\ Product.quantity widget < Order.quantity widget_bulk_order
  /\ exists (r : outcome unit) (st' : State) (p' : Product.t),
       update_quantity_on_order_confirmation admits_stocked_rows 1
         widget_bulk_state = (r, st')
       /\ product_objs st' !! 1%positive = Some p'
       /\ Product.quantity p' = 100 - 103
       /\ Product.quantity p' < 0
       /\ (admits_stocked_rows
             (Product.to_row (Product.set_quantity (100 - 103) widget)) = true ->
           r = Returned tt
           /\ exists (k : Z) (row : Product.row),
                Product.pk p' = Some k
                /\ products_table st' !! k = Some row
                /\ Product.row_quantity row = 100 - 103
                /\ Product.row_quantity row < 0)
       /\ (admits_stocked_rows
             (Product.to_row (Product.set_quantity (100 - 103) widget)) = false ->
           r = Raised IntegrityError
           /\ products_table st' = products_table widget_bulk_state
           /\ stdout st' = stdout widget_bulk_state).
Proof.
  assert (H1 : order_objs widget_bulk_state !! 1%positive = Some widget_bulk_order)
    by reflexivity.
  assert (H2 : Order_product 1 widget_bulk_state
               = (Returned 1%positive, widget_bulk_state)) by reflexivity.
  assert (H3 : product_objs widget_bulk_state !! 1%positive = Some widget)
    by reflexivity.
  assert (H4 : Product.quantity widget < Order.quantity widget_bulk_order)
    by (simpl; lia).
  split; [exact H1|]. split; [exact H2|]. split; [exact H3|].
  split; [exact H4|].
  exact (confirmation_underflow_left_to_table admits_stocked_rows
           widget_bulk_state widget_bulk_state 1 1 widget_bulk_order widget
           H1 H2 H3 H4).
Defined.

(** C9. The receiver never modifies the order it receives, whatever the
    outcome: the order's key, product reference, quantity, total price and
    confirmed flag are what they were, no other order instance changes, and
    the orders table is untouched (the order is not saved again).  Only the
    product is mutated and persisted. *)
Theorem confirmation_leaves_order
    (admits : Product.row -> bool) (st st' : State) (sender : positive)
    (o : Order.t) (r : outcome unit) :
  order_objs st !! sender = Some o ->
  update_quantity_on_order_confirmation admits sender st = (r, st') ->
  orders_table st' = orders_table st
  /\ (exists o',
        order_objs st' !! sender = Some o'
        /\ Order.pk o' = Order.pk o
        /\ Order.product_id o' = Order.product_id o
        /\ Order.quantity o' = Order.quantity o
        /\ Order.total_price o' = Order.total_price o
        /\ Order.confirmed o' = Order.confirmed o)
  /\ (forall s, s <> sender -> order_objs st' !! s = order_objs st !! s).
Proof.
  intros Ho Hrun.
  destruct (Order_product sender st) as [[l|e] st1] eqn:Hres.
  - destruct (Order_product_frame _ _ _ _ _ Ho Hres) as (_ & Hot & _ & Hobjs & _).
    assert (Hst1 :
      orders_table st1 = orders_table st
      /\ (exists o',
            order_objs st1 !! sender = Some o'
            /\ Order.pk o' = Order.pk o
            /\ Order.product_id o' = Order.product_id o
            /\ Order.quantity o' = Order.quantity o
            /\ Order.total_price o' = Order.total_price o
            /\ Order.confirmed o' = Order.confirmed o)
      /\ (forall s, s <> sender -> order_objs st1 !! s = order_objs st !! s)).
    { split; [done|]. rewrite Hobjs. split.
      - eexists. rewrite lookup_insert_eq. done.
      - intros s Hs. by rewrite lookup_insert_ne. }
    destruct (product_objs st1 !! l) as [p|] eqn:Hp.
    + rewrite (receiver_run admits _ _ _ _ _ _ Ho Hres Hp) in Hrun.
      simpl in Hrun. destruct (admits _); [destruct (Product.pk p)|];
        injection Hrun as <- <-; exact Hst1.
    + rewrite (receiver_dangling admits _ _ _ _ Hres Hp) in Hrun.
      injection Hrun as <- <-. exact Hst1.
  - rewrite (receiver_unresolved admits _ _ _ _ Hres) in Hrun.
    injection Hrun as <- <-. eauto 10.
Qed.

Lemma confirmation_leaves_order_widget :
  order_objs widget_loaded_state !! 1%positive = Some widget_order_loaded
  /\ exists st',
       update_quantity_on_order_confirmation admits_every_row 1 widget_loaded_state
       = (Returned tt, st')
       /\ orders_table st' = orders_table widget_loaded_state
       /\ (exists o',
             order_objs st' !! 1%positive = Some o'
             /\ Order.pk o' = Some 1
             /\ Order.product_id o' = Some 1
             /\ Order.quantity o' = 3
             /\ Order.total_price o' = Some (Decimal.mk 2997 (-2))
             /\ Order.confirmed o' = true)
       /\ (forall s, s <> 1%positive ->
             order_objs st' !! s = order_objs widget_loaded_state !! s).
Proof.
  assert (H1 : order_objs widget_loaded_state !! 1%positive
               = Some widget_order_loaded) by reflexivity.
  split; [exact H1|].
  eexists. split; [reflexivity|].
  exact (confirmation_leaves_order admits_every_row widget_loaded_state _ 1
           widget_order_loaded (Returned tt) H1 eq_refl).
Defined.

(** C10. The receiver does not look at the order's [confirmed] flag: run on
    a state in which the flag of the sender has been set to either value, it
    has the same outcome as on the original state and leaves the same
    product instances, the same products table and the same output; the
    whole final state is the original final state with that flag set.  The
    product is decremented and persisted identically whether
    [sender.confirmed] is true or false. *)
Theorem confirmation_ignores_confirmed_flag
    (admits : Product.row -> bool) (b : bool) (sender : positive) (st : State) :
  let '(r, st') := update_quantity_on_order_confirmation admits sender st in
  let '(rb, stb) :=
    update_quantity_on_order_confirmation admits sender (with_confirmed b sender st) in
  rb = r
  /\ product_objs stb = product_objs st'
  /\ products_table stb = products_table st'
  /\ stdout stb = stdout st'
  /\ stb = with_confirmed b sender st'.
Proof.
  rewrite (receiver_with_confirmed admits b sender st).
  by destruct (update_quantity_on_order_confirmation admits sender st) as [r st'].
Qed.

(** ** Further scenarios *)

(** A second save after the Widget's price has gone up to 10.49 brings the
    total to 31.47, on the instance and in the row, which stays the only
    row. *)
Example resave_after_price_change :
  let st1 := (Order_save sqlite_integer_max 1 widget_state).2 in
  let run := Order_save sqlite_integer_max 1 (with_price (Decimal.mk 1049 (-2)) 1 st1) in
  run.1 = Returned tt
  /\ Order.total_price <$> order_objs run.2 !! 1%positive
     = Some (Some (Decimal.mk 3147 (-2)))
  /\ Order.row_total_price <$> (map_to_list (orders_table run.2)).*2
     = [Some (Decimal.mk 3147 (-2))].
Proof. vm_compute. repeat split. Qed.

(** A second save after only [confirmed] has been set recomputes the same
    total and stores the flag. *)
Example resave_after_confirming :
  let st1 := (Order_save sqlite_integer_max 1 widget_state).2 in
  let run := Order_save sqlite_integer_max 1 (with_confirmed true 1 st1) in
  run.1 = Returned tt
  /\ Order.total_price <$> order_objs run.2 !! 1%positive
     = Some (Some (Decimal.mk 2997 (-2)))
  /\ (map_to_list (orders_table run.2)).*2
     = [Order.mk_row 1 3 (Some (Decimal.mk 2997 (-2))) true].
Proof. vm_compute. repeat split. Qed.

(** A price with three fractional digits: the instance keeps the full
    product, the row holds it rounded to two. *)
Example save_rounds_stored_total :
  let run := Order_save sqlite_integer_max 1 (with_price (Decimal.mk 9995 (-3)) 1 widget_state) in
  run.1 = Returned tt
  /\ Order.total_price <$> order_objs run.2 !! 1%positive
     = Some (Some (Decimal.mk 29985 (-3)))
  /\ Order.row_total_price <$> (map_to_list (orders_table run.2)).*2
     = [Some (Decimal.mk 2998 (-2))].
Proof. vm_compute. repeat split. Qed.

(** A negative quantity and a total beyond ten digits are refused by the
    storage layer. *)
Example save_refuses_negative_quantity :
  let st := set_order_objs
              {[ 1%positive := Order.mk None (Some 1) (Some 1%positive) (-3) None false ]}
              widget_state in
  (Order_save sqlite_integer_max 1 st).1 = Raised IntegrityError
  /\ map_to_list (orders_table (Order_save sqlite_integer_max 1 st).2) = [].
Proof. vm_compute. repeat split. Qed.

Example save_refuses_oversized_total :
  let run := Order_save sqlite_integer_max 1 widget_huge_state in
  run.1 = Raised InvalidOperation
  /\ map_to_list (orders_table run.2) = [].
Proof. vm_compute. repeat split. Qed.

(** A quantity of 2^63 does not fit the integer column of SQLite: the save
    raises and stores nothing, although the total 0.00 fits its column.  On
    a column of 32 bits the same happens from 2^31 on. *)
Example save_refuses_oversized_quantity :
  let run := Order_save sqlite_integer_max 1 widget_overflow_state in
  run.1 = Raised OutOfRange
  /\ map_to_list (orders_table run.2) = [].
Proof. vm_compute. repeat split. Qed.

Example save_refuses_quantity_beyond_32_bits :
  let st := set_order_objs
              {[ 1%positive :=
                   Order.mk None (Some 1) (Some 1%positive) (2 ^ 31) None false ]}
              widget_overflow_state in
  (Order_save (2 ^ 31 - 1) 1 st).1 = Raised OutOfRange
  /\ (Order_save sqlite_integer_max 1 st).1 = Returned tt.
Proof. vm_compute. repeat split. Qed.

(** The arguments of [save] that contradict each other, name no field or
    name an unknown field: nothing is written, and the total is on the
    instance all the same. *)
Example save_with_odd_arguments :
  let st := widget_repriced_state in
  let total (run : outcome unit * State) :=
    Order.total_price <$> order_objs run.2 !! 1%positive in
  let unchanged (run : outcome unit * State) :=
    orders_table run.2 = orders_table st in
  let both := Order_save_with sqlite_integer_max
                (mk_save_args true true None) 1 st in
  let none := Order_save_with sqlite_integer_max
                (mk_save_args false false (Some [])) 1 st in
  let unknown := Order_save_with sqlite_integer_max
                   (mk_save_args false false (Some ["price"%string])) 1 st in
  both.1 = Raised ValueError /\ unchanged both
  /\ total both = Some (Some (Decimal.mk 3147 (-2)))
  /\ none.1 = Returned tt /\ unchanged none
  /\ total none = Some (Some (Decimal.mk 3147 (-2)))
  /\ unknown.1 = Raised ValueError /\ unchanged unknown
  /\ total unknown = Some (Some (Decimal.mk 3147 (-2))).
Proof. vm_compute. repeat split. Qed.

(** [save(update_fields=["total_price"])] writes the new total and leaves
    the stored flag; [save(force_insert=True)] on a stored order is refused
    because its key is taken; [save(force_update=True)] on a new order is
    refused as well. *)
Example save_with_forcing_arguments :
  let st := widget_repriced_state in
  let total_only := Order_save_with sqlite_integer_max
                      (mk_save_args false false (Some ["total_price"%string])) 1 st in
  let insert := Order_save_with sqlite_integer_max
                  (mk_save_args true false None) 1 st in
  let update := Order_save_with sqlite_integer_max
                  (mk_save_args false true None) 1 widget_state in
  total_only.1 = Returned tt
  /\ orders_table total_only.2 !! 1
     = Some (Order.mk_row 1 3 (Some (Decimal.mk 3147 (-2))) false)
  /\ insert.1 = Raised IntegrityError
  /\ orders_table insert.2 = orders_table st
  /\ update.1 = Raised ValueError
  /\ orders_table update.2 = orders_table widget_state.
Proof. vm_compute. repeat split. Qed.

(** * Further properties

    ** Decimal bounds *)

(** What [quantize] returns has the requested exponent and fits the
    precision. *)
Lemma quantize_Some_bounds (prec places : Z) (d t : Decimal.t) :
  0 <= prec ->
  Decimal.quantize prec places d = Some t ->
  Decimal.exp t = - places /\ Z.abs (Decimal.coef t) < 10 ^ prec.
Proof.
  intros Hprec. unfold Decimal.quantize.
  assert (Hpos : 0 < 10 ^ prec) by (apply Z.pow_pos_nonneg; lia).
  destruct (Decimal.coef d =? 0); [intros [= <-]; simpl; lia|].
  destruct (prec <? Decimal.adjusted d + places + 1); [done|].
  destruct (Z.ltb_spec prec (Decimal.digits (Decimal.coef (Decimal.rescale (- places) d))))
    as [|Hfit]; [done|].
  intros [= <-]. split.
  - unfold Decimal.rescale. by destruct (_ <=? _).
  - set (c := Decimal.coef (Decimal.rescale (- places) d)) in *.
    destruct (Z.eq_dec c 0) as [->|Hc]; [simpl; lia|].
    by apply digits_le_iff.
Qed.


(** ** [Order.save]: what it leaves alone *)

(** Everything a run of [Order.save] can change: the order's own instance,
    the cache of a freshly fetched product and, when it returns, the one row
    of the orders table under the order's key. *)
Lemma Order_save_effects (qmax : N) (st st' : State) (self : positive)
    (r : outcome unit) :
  Order_save qmax self st = (r, st') ->
  products_table st' = products_table st
  /\ stdout st' = stdout st
  /\ (forall l q, product_objs st !! l = Some q -> product_objs st' !! l = Some q)
  /\ (forall s, s <> self -> order_objs st' !! s = order_objs st !! s)
  /\ match r with
     | Raised _ => orders_table st' = orders_table st
     | Returned _ =>
         exists (o o' : Order.t) (i : Z) (row : Order.row) (t : Decimal.t),
           order_objs st !! self = Some o
           /\ order_objs st' !! self = Some o'
           /\ Order.pk o' = Some i
           /\ (Order.pk o = Some i
               \/ (Order.pk o = None /\ orders_table st !! i = None))
           /\ orders_table st' = <[i := row]> (orders_table st)
           /\ is_Some (products_table st !! Order.row_product_id row)
           /\ Order.row_quantity row = Order.quantity o
           /\ 0 <= Order.quantity o
           /\ Order.row_confirmed row = Order.confirmed o
           /\ Order.row_total_price row = Some t
           /\ Order.total_price o' <> None
           /\ Decimal.quantize Order.max_digits Order.decimal_places
                (default t (Order.total_price o')) = Some t
     end.
Proof.
  intros Hrun.
  destruct (Order_product self st) as [[l|e] st1] eqn:Hres.
  2:{ rewrite (Order_save_unresolved qmax _ _ _ _ Hres) in Hrun.
      injection Hrun as <- <-. done. }
  destruct (Order_product_returned _ _ _ _ Hres) as (o & Ho & _).
  destruct (Order_product_frame _ _ _ _ _ Ho Hres)
    as (Hpt & Hot & Hout & Hobjs & Hkeep & _).
  assert (Hothers : forall (x : Order.t) s, s <> self ->
            <[self := x]> (order_objs st1) !! s = order_objs st !! s).
  { intros x s Hs. by rewrite Hobjs, !lookup_insert_ne. }
  destruct (product_objs st1 !! l) as [p|] eqn:Hp.
  2:{ rewrite (Order_save_dangling qmax _ _ _ _ Hres Hp) in Hrun.
      injection Hrun as <- <-. repeat split; try done.
      intros s Hs. by rewrite Hobjs, lookup_insert_ne. }
  rewrite (Order_save_run qmax _ _ _ _ _ _ Ho Hres Hp) in Hrun. cbv zeta in Hrun.
  destruct (Product.pk p) as [k|] eqn:Hpk.
  2:{ injection Hrun as <- <-. simpl_state. repeat split; auto. }
  destruct (Decimal.quantize _ _ _) as [t|] eqn:Hq.
  2:{ injection Hrun as <- <-. simpl_state. repeat split; auto. }
  destruct (integer_in_range _ _).
  2:{ injection Hrun as <- <-. simpl_state. repeat split; auto. }
  destruct (Z.leb_spec 0 (Order.quantity o)) as [Hnn|];
    [|injection Hrun as <- <-; simpl_state; repeat split; auto].
  simpl in Hrun. case_bool_decide as Hrow;
    [|injection Hrun as <- <-; simpl_state; repeat split; auto].
  rewrite Hpt in Hrow.
  destruct (Order.pk o) as [i|] eqn:Hi; injection Hrun as <- <-; simpl_state;
    (split; [done|]); (split; [done|]); (split; [done|]); (split; [by auto|]).
  - case_decide; eexists o, _, i, _, t; rewrite lookup_insert_eq, Hot;
      (split; [exact Ho|]); (split; [reflexivity|]);
      simpl_fields; rewrite ?Hi; repeat split; try done; auto.
  - set (i := fresh (dom (orders_table st1))).
    assert (Hfresh : orders_table st !! i = None).
    { apply not_elem_of_dom. rewrite <- Hot. apply is_fresh. }
    case_decide; eexists o, _, i, _, t; rewrite lookup_insert_eq, Hot;
      (split; [exact Ho|]); (split; [reflexivity|]);
      simpl_fields; repeat split; try done; auto.
Qed.

(** X1. A save that raises, for whatever reason, has written nothing and
    printed nothing: both tables and the output are what they were. *)
Theorem Order_save_raised_writes_nothing
    (qmax : N) (st st' : State) (self : positive) (e : Exn) :
  Order_save qmax self st = (Raised e, st') ->
  products_table st' = products_table st
  /\ orders_table st' = orders_table st
  /\ stdout st' = stdout st.
Proof.
  intros Hrun.
  destruct (Order_save_effects qmax _ _ _ _ Hrun) as (Hpt & Hout & _ & _ & Hot).
  done.
Qed.

Lemma Order_save_raised_writes_nothing_negative :
  Order_save sqlite_integer_max 1 widget_negative_state
  = (Raised IntegrityError, (Order_save sqlite_integer_max 1 widget_negative_state).2)
  /\ products_table (Order_save sqlite_integer_max 1 widget_negative_state).2
     = products_table widget_negative_state
  /\ orders_table (Order_save sqlite_integer_max 1 widget_negative_state).2
     = orders_table widget_negative_state
  /\ stdout (Order_save sqlite_integer_max 1 widget_negative_state).2 = stdout widget_negative_state.
Proof.
  assert (H : Order_save sqlite_integer_max 1 widget_negative_state
              = (Raised IntegrityError, (Order_save sqlite_integer_max 1 widget_negative_state).2))
    by (vm_compute; reflexivity).
  split; [exact H|].
  exact (Order_save_raised_writes_nothing sqlite_integer_max widget_negative_state _ 1 IntegrityError H).
Defined.

(** X2. [Order.save] never touches a product, whatever its outcome: the
    products table is unchanged, every product instance that existed keeps
    all its fields, nothing is printed and no other order instance
    changes. *)
Theorem Order_save_never_touches_products
    (qmax : N) (st : State) (self : positive) :
  products_table (Order_save qmax self st).2 = products_table st
  /\ stdout (Order_save qmax self st).2 = stdout st
  /\ (forall l q, product_objs st !! l = Some q ->
                  product_objs (Order_save qmax self st).2 !! l = Some q)
  /\ (forall s, s <> self ->
                order_objs (Order_save qmax self st).2 !! s
                = order_objs st !! s).
Proof.
  destruct (Order_save qmax self st) as [r st'] eqn:Hrun.
  destruct (Order_save_effects qmax _ _ _ _ Hrun) as (Hpt & Hout & Hp & Ho & _).
  done.
Qed.

(** X3. A save that returns writes exactly one row of the orders table, the
    order's own: an order that was stored before keeps its key and is
    updated in place, a new order receives a key that no row was using, and
    every other row is unchanged. *)
Theorem Order_save_writes_one_row
    (qmax : N) (st st' : State) (self : positive) :
  Order_save qmax self st = (Returned tt, st') ->
  exists (o o' : Order.t) (i : Z),
    order_objs st !! self = Some o
    /\ order_objs st' !! self = Some o'
    /\ Order.pk o' = Some i
    /\ (Order.pk o = Some i \/ (Order.pk o = None /\ orders_table st !! i = None))
    /\ is_Some (orders_table st' !! i)
    /\ (forall j, j <> i -> orders_table st' !! j = orders_table st !! j).
Proof.
  intros Hrun.
  destruct (Order_save_effects qmax _ _ _ _ Hrun) as (_ & _ & _ & _ & Hret).
  destruct Hret as (o & o' & i & row & t & Ho & Ho' & Hi & Hkey & Hot & _).
  exists o, o', i. rewrite Hot. repeat split; try done.
  - rewrite lookup_insert_eq. by eexists.
  - intros j Hj. by rewrite lookup_insert_ne.
Qed.

Lemma Order_save_writes_one_row_widget :
  Order_save sqlite_integer_max 1 widget_loaded_state
  = (Returned tt, (Order_save sqlite_integer_max 1 widget_loaded_state).2)
  /\ exists (o o' : Order.t) (i : Z),
       order_objs widget_loaded_state !! 1%positive = Some o
       /\ order_objs (Order_save sqlite_integer_max 1 widget_loaded_state).2 !! 1%positive = Some o'
       /\ Order.pk o' = Some i
       /\ (Order.pk o = Some i
           \/ (Order.pk o = None /\ orders_table widget_loaded_state !! i = None))
       /\ is_Some (orders_table (Order_save sqlite_integer_max 1 widget_loaded_state).2 !! i)
       /\ (forall j, j <> i ->
             orders_table (Order_save sqlite_integer_max 1 widget_loaded_state).2 !! j
             = orders_table widget_loaded_state !! j).
Proof.
  assert (H : Order_save sqlite_integer_max 1 widget_loaded_state
              = (Returned tt, (Order_save sqlite_integer_max 1 widget_loaded_state).2))
    by (vm_compute; reflexivity).
  split; [exact H|].
  exact (Order_save_writes_one_row sqlite_integer_max widget_loaded_state _ 1 H).
Defined.

(** X5. An order with a negative quantity is never stored: its save
    raises, whatever else holds of the order, and both tables stay as they
    were. *)
Theorem Order_save_rejects_negative_quantity
    (qmax : N) (st : State) (self : positive) (o : Order.t) :
  order_objs st !! self = Some o ->
  Order.quantity o < 0 ->
  exists (e : Exn) (st' : State),
    Order_save qmax self st = (Raised e, st')
    /\ products_table st' = products_table st
    /\ orders_table st' = orders_table st.
Proof.
  intros Ho Hneg.
  destruct (Order_save qmax self st) as [[[]|e] st'] eqn:Hrun.
  - destruct (Order_save_effects qmax _ _ _ _ Hrun) as (_ & _ & _ & _ & Hret).
    destruct Hret as (o1 & _ & _ & _ & _ & Ho1 & _ & _ & _ & _ & _ & _ & Hnn & _).
    assert (o1 = o) as -> by congruence. lia.
  - destruct (Order_save_effects qmax _ _ _ _ Hrun) as (Hpt & _ & _ & _ & Hot).
    by exists e, st'.
Qed.

Lemma Order_save_rejects_negative_quantity_widget :
  order_objs widget_negative_state !! 1%positive
  = Some (Order.mk None (Some 1) (Some 1%positive) (-3) None false)
  /\ -3 < 0
  /\ exists (e : Exn) (st' : State),
       Order_save sqlite_integer_max 1 widget_negative_state = (Raised e, st')
       /\ products_table st' = products_table widget_negative_state
       /\ orders_table st' = orders_table widget_negative_state.
Proof.
  assert (H1 : order_objs widget_negative_state !! 1%positive
               = Some (Order.mk None (Some 1) (Some 1%positive) (-3) None false))
    by reflexivity.
  assert (H2 : -3 < 0) by lia.
  repeat split; try assumption.
  exact (Order_save_rejects_negative_quantity sqlite_integer_max
           widget_negative_state 1 _ H1 H2).
Defined.

(** X7. [Order.save] keeps the orders table well formed, whatever its
    outcome: if every stored order refers to a stored product, has a
    quantity that is not negative and a total with two fractional digits
    within ten digits, the same holds after the save, also of the row it
    wrote. *)
Theorem Order_save_keeps_orders_well_formed
    (qmax : N) (st : State) (self : positive) :
  orders_table_ok st -> orders_table_ok (Order_save qmax self st).2.
Proof.
  intros Hok. destruct (Order_save qmax self st) as [r st'] eqn:Hrun. simpl.
  destruct (Order_save_effects qmax _ _ _ _ Hrun) as (Hpt & _ & _ & _ & Hcase).
  assert (Hold : forall row, order_row_ok st row -> order_row_ok st' row).
  { intros row (Hp & Hq & Ht). unfold order_row_ok. by rewrite Hpt. }
  destruct r as [[]|e].
  - destruct Hcase as (o & o' & i & row & t & _ & _ & _ & _ & Hot & Hp
                         & Hq & Hnn & _ & Ht & _ & Hquant).
    intros j row' Hj. rewrite Hot in Hj.
    destruct (decide (i = j)) as [<-|Hne].
    + rewrite lookup_insert_eq in Hj. injection Hj as <-.
      unfold order_row_ok. rewrite Hpt, Hq, Ht.
      split; [done|]. split; [done|]. intros t' [= <-].
      exact (quantize_Some_bounds Order.max_digits _ _ _ ltac:(done) Hquant).
    + rewrite lookup_insert_ne in Hj by done. apply Hold. by eapply Hok.
  - intros j row' Hj. rewrite Hcase in Hj. apply Hold. by eapply Hok.
Qed.

Lemma Order_save_keeps_orders_well_formed_widget :
  orders_table_ok widget_loaded_state
  /\ orders_table_ok (Order_save sqlite_integer_max 1 widget_loaded_state).2.
Proof.
  assert (H : orders_table_ok widget_loaded_state).
  { intros i row Hi. unfold widget_loaded_state in Hi. simpl in Hi.
    apply lookup_singleton_Some in Hi as [<- <-].
    split; [by eexists|]. split; [done|].
    intros t [= <-]. split; [reflexivity|]. vm_compute. reflexivity. }
  split; [exact H|].
  exact (Order_save_keeps_orders_well_formed sqlite_integer_max
           widget_loaded_state 1 H).
Defined.

(** X4. Saving is idempotent: when a save has returned for an order whose
    key column agrees with its product (or was still empty), saving the
    order again straight away returns and leaves the whole state, instances,
    tables and output, exactly as the first save left it. *)
Theorem Order_save_idempotent
    (qmax : N) (st st1 st' : State) (self l : positive) (o : Order.t)
    (p : Product.t) (k : Z) :
  order_objs st !! self = Some o ->
  Order_product self st = (Returned l, st1) ->
  product_objs st1 !! l = Some p ->
  Product.pk p = Some k ->
  default k (Order.product_id o) = k ->
  Order_save qmax self st = (Returned tt, st') ->
  Order_save qmax self st' = (Returned tt, st').
Proof.
  intros Ho Hres Hp Hpk Hkk Hrun.
  destruct (Order_product_frame _ _ _ _ _ Ho Hres) as (Hpt & _).
  rewrite (Order_save_run qmax _ _ _ _ _ _ Ho Hres Hp) in Hrun. cbv zeta in Hrun.
  rewrite Hpk, Hkk in Hrun. rewrite decide_True in Hrun by done.
  destruct (Decimal.quantize _ _ _) as [t|] eqn:Hq; [|done].
  destruct (integer_in_range _ _) eqn:Hin; [|done].
  destruct (Z.leb_spec 0 (Order.quantity o)) as [Hnn|]; [|done].
  simpl in Hrun. case_bool_decide as Hrow; [|done].
  set (total := Decimal.mul_int (Product.price p) (Order.quantity o)) in *.
  set (o3 := Order.set_product_id (Some k)
               (Order.set_total_price (Some total)
                  (Order.set_product_cache (Some l) o))) in *.
  assert (Hagain : forall (i : Z) (st2 : State),
    order_objs st2 !! self = Some (Order.set_pk i o3) ->
    product_objs st2 !! l = Some p ->
    products_table st2 = products_table st1 ->
    Order_save qmax self st2
    = (Returned tt,
       set_orders_table
         (<[i := Order.mk_row k (Order.quantity o) (Some t) (Order.confirmed o)]>
            (orders_table st2))
         (set_order_objs (<[self := Order.set_pk i o3]> (order_objs st2)) st2))).
  { intros i st2 Ho2 Hp2 Hpt2.
    assert (Hres2 : Order_product self st2 = (Returned l, st2))
      by (by apply (Order_product_cached _ _ _ _ Ho2)).
    rewrite (Order_save_run qmax _ _ _ _ _ _ Ho2 Hres2 Hp2). cbv zeta.
    rewrite Hpk. subst o3. simpl_fields. fold total.
    rewrite decide_True by done. rewrite Hq, Hin, Hpt2.
    destruct (Z.leb_spec 0 (Order.quantity o)); [|lia]. simpl.
    rewrite bool_decide_true by done. done. }
  destruct (Order.pk o) as [i|] eqn:Hi; injection Hrun as <-.
  - assert (Ho3 : Order.set_pk i o3 = o3).
    { subst o3. destruct o; simpl in *. by subst. }
    rewrite (Hagain i); simpl_state; rewrite ?lookup_insert_eq, ?Ho3; try done.
    by rewrite !insert_insert_eq.
  - set (i := fresh (dom (orders_table st1))).
    rewrite (Hagain i); simpl_state; rewrite ?lookup_insert_eq; try done.
    by rewrite !insert_insert_eq.
Qed.

Lemma Order_save_idempotent_widget :
  order_objs widget_state !! 1%positive = Some widget_order
  /\ Order_product 1 widget_state = (Returned 1%positive, widget_state)
  /\ product_objs widget_state !! 1%positive = Some widget
  /\ Product.pk widget = Some 1
  /\ default 1 (Order.product_id widget_order) = 1
  /\ Order_save sqlite_integer_max 1 widget_state = (Returned tt, (Order_save sqlite_integer_max 1 widget_state).2)
  /\ Order_save sqlite_integer_max 1 (Order_save sqlite_integer_max 1 widget_state).2
     = (Returned tt, (Order_save sqlite_integer_max 1 widget_state).2).
Proof.
  assert (H1 : order_objs widget_state !! 1%positive = Some widget_order)
    by reflexivity.
  assert (H2 : Order_product 1 widget_state = (Returned 1%positive, widget_state))
    by reflexivity.
  assert (H3 : product_objs widget_state !! 1%positive = Some widget)
    by reflexivity.
  assert (H4 : Product.pk widget = Some 1) by reflexivity.
  assert (H5 : default 1 (Order.product_id widget_order) = 1) by reflexivity.
  assert (H6 : Order_save sqlite_integer_max 1 widget_state
               = (Returned tt, (Order_save sqlite_integer_max 1 widget_state).2))
    by (vm_compute; reflexivity).
  split; [exact H1|]. split; [exact H2|]. split; [exact H3|].
  split; [exact H4|]. split; [exact H5|]. split; [exact H6|].
  exact (Order_save_idempotent sqlite_integer_max widget_state widget_state _ 1 1 widget_order widget
           1 H1 H2 H3 H4 H5 H6).
Defined.



(** ** The receiver: what it leaves alone *)

(** The receiver never touches the orders table and never removes a product
    row; when it raises it has written no row and printed nothing, when it
    returns it has printed one line. *)
Lemma receiver_effects (admits : Product.row -> bool) (st st' : State)
    (sender : positive) (r : outcome unit) :
  update_quantity_on_order_confirmation admits sender st = (r, st') ->
  orders_table st' = orders_table st
  /\ (forall k, is_Some (products_table st !! k) -> is_Some (products_table st' !! k))
  /\ match r with
     | Raised _ => products_table st' = products_table st /\ stdout st' = stdout st
     | Returned _ => length (stdout st') = S (length (stdout st))
     end.
Proof.
  intros Hrun.
  destruct (Order_product sender st) as [[l|e] st1] eqn:Hres.
  2:{ rewrite (receiver_unresolved admits _ _ _ _ Hres) in Hrun.
      injection Hrun as <- <-. done. }
  destruct (Order_product_returned _ _ _ _ Hres) as (o & Ho & _).
  destruct (Order_product_frame _ _ _ _ _ Ho Hres) as (Hpt & Hot & Hout & _).
  destruct (product_objs st1 !! l) as [p|] eqn:Hp.
  2:{ rewrite (receiver_dangling admits _ _ _ _ Hres Hp) in Hrun.
      injection Hrun as <- <-. rewrite Hpt. done. }
  rewrite (receiver_run admits _ _ _ _ _ _ Ho Hres Hp) in Hrun. simpl in Hrun.
  assert (Hkeep : forall (k' : Z) (x : Product.row) k,
            is_Some (products_table st !! k) ->
            is_Some (<[k' := x]> (products_table st1) !! k)).
  { intros k' x k Hk. rewrite Hpt. destruct (decide (k' = k)) as [->|Hne].
    - rewrite lookup_insert_eq. by eexists.
    - by rewrite lookup_insert_ne. }
  destruct (admits _).
  - destruct (Product.pk p); injection Hrun as <- <-; simpl_state;
      rewrite Hout, length_app; simpl; repeat split; auto; lia.
  - injection Hrun as <- <-. simpl_state. rewrite Hpt. done.
Qed.

(** X8. The receiver keeps the orders table well formed, whatever its
    outcome: it writes no order row and removes no product row, so every
    stored order still refers to a stored product. *)
Theorem confirmation_keeps_orders_well_formed
    (admits : Product.row -> bool) (st : State) (sender : positive) :
  orders_table_ok st ->
  orders_table_ok (update_quantity_on_order_confirmation admits sender st).2.
Proof.
  intros Hok.
  destruct (update_quantity_on_order_confirmation admits sender st)
    as [r st'] eqn:Hrun. simpl.
  destruct (receiver_effects _ _ _ _ _ Hrun) as (Hot & Hkeep & _).
  intros i row Hi. rewrite Hot in Hi.
  destruct (Hok i row Hi) as (Hp & Hq & Ht). split; [by apply Hkeep|done].
Qed.

Lemma confirmation_keeps_orders_well_formed_widget :
  orders_table_ok widget_loaded_state
  /\ orders_table_ok
       (update_quantity_on_order_confirmation admits_every_row 1
          widget_loaded_state).2.
Proof.
  assert (H : orders_table_ok widget_loaded_state).
  { intros i row Hi. unfold widget_loaded_state in Hi. simpl in Hi.
    apply lookup_singleton_Some in Hi as [<- <-].
    split; [by eexists|]. split; [done|].
    intros t [= <-]. split; [reflexivity|]. vm_compute. reflexivity. }
  split; [exact H|].
  exact (confirmation_keeps_orders_well_formed admits_every_row
           widget_loaded_state 1 H).
Defined.

(** ** Several deliveries *)

(** One delivery for an order that holds a stored product instance. *)
Lemma receiver_cached_stored (admits : Product.row -> bool) (st : State)
    (sender l : positive) (o : Order.t) (p : Product.t) (k : Z) :
  order_objs st !! sender = Some o ->
  Order.product_cache o = Some l ->
  product_objs st !! l = Some p ->
  Product.pk p = Some k ->
  let p1 := Product.set_quantity (Product.quantity p - Order.quantity o) p in
  admits (Product.to_row p1) = true ->
  update_quantity_on_order_confirmation admits sender st
  = (Returned tt,
     set_stdout
       (stdout st
        ++ [("Quantity updated for " ++ Product.name p ++ ". New quantity: "
             ++ str_int (Product.quantity p - Order.quantity o))%string])
       (set_products_table (<[k := Product.to_row p1]> (products_table st))
          (set_product_objs (<[l := p1]> (product_objs st)) st))).
Proof.
  intros Ho Hc Hp Hpk p1 Hadm.
  pose proof (Order_product_cached _ _ _ _ Ho Hc) as Hres.
  rewrite (receiver_run admits _ _ _ _ _ _ Ho Hres Hp). simpl.
  fold p1. by rewrite Hadm, Hpk.
Qed.






(** X12. The receiver stores what its own product instance holds, not the
    row lowered: when two orders hold two different instances of the same
    product, after a delivery for each the stored quantity is the second
    instance's earlier quantity less the second order's quantity.  The first
    delivery's decrement is overwritten; with both instances fetched at the
    same stock, the row ends lowered by the second order only. *)
Theorem confirmation_with_stale_instance_overwrites
    (admits : Product.row -> bool) (st : State) (s1 s2 l1 l2 : positive)
    (o1 o2 : Order.t) (p1 p2 : Product.t) (k : Z) :
  l1 <> l2 ->
  order_objs st !! s1 = Some o1 ->
  order_objs st !! s2 = Some o2 ->
  Order.product_cache o1 = Some l1 ->
  Order.product_cache o2 = Some l2 ->
  product_objs st !! l1 = Some p1 ->
  product_objs st !! l2 = Some p2 ->
  Product.pk p1 = Some k ->
  Product.pk p2 = Some k ->
  admits (Product.to_row
            (Product.set_quantity (Product.quantity p1 - Order.quantity o1) p1)) = true ->
  admits (Product.to_row
            (Product.set_quantity (Product.quantity p2 - Order.quantity o2) p2)) = true ->
  exists st',
    (order_confirmed_send admits s1;; order_confirmed_send admits s2) st
    = (Returned tt, st')
    /\ products_table st' !! k
       = Some (Product.to_row
                 (Product.set_quantity (Product.quantity p2 - Order.quantity o2) p2))
    /\ product_objs st' !! l1
       = Some (Product.set_quantity (Product.quantity p1 - Order.quantity o1) p1).
Proof.
  intros Hne Ho1 Ho2 Hc1 Hc2 Hp1 Hp2 Hk1 Hk2 Hadm1 Hadm2.
  unfold order_confirmed_send.
  rewrite (bind_returned _ _ _ _ _
             (receiver_cached_stored admits _ _ _ _ _ _ Ho1 Hc1 Hp1 Hk1 Hadm1)).
  match goal with |- context [update_quantity_on_order_confirmation admits s2 ?s] =>
    set (st1 := s) end.
  assert (Ho2' : order_objs st1 !! s2 = Some o2) by done.
  assert (Hp2' : product_objs st1 !! l2 = Some p2).
  { subst st1. simpl_state. by rewrite lookup_insert_ne. }
  rewrite (receiver_cached_stored admits _ _ _ _ _ _ Ho2' Hc2 Hp2' Hk2 Hadm2).
  eexists. split; [done|]. subst st1. simpl_state. split.
  - by rewrite lookup_insert_eq.
  - by rewrite lookup_insert_ne, lookup_insert_eq.
Qed.

Lemma confirmation_with_stale_instance_overwrites_widget :
  1%positive <> 2%positive
  /\ product_objs two_instances_state !! 1%positive = Some widget
  /\ product_objs two_instances_state !! 2%positive = Some widget
  /\ Product.pk widget = Some 1
  /\ exists st',
       (order_confirmed_send admits_every_row 1;;
        order_confirmed_send admits_every_row 2) two_instances_state
       = (Returned tt, st')
       /\ products_table st' !! 1
          = Some (Product.to_row (Product.set_quantity (100 - 5) widget))
       /\ product_objs st' !! 1%positive
          = Some (Product.set_quantity (100 - 3) widget).
Proof.
  assert (H0 : 1%positive <> 2%positive) by discriminate.
  assert (H1 : product_objs two_instances_state !! 1%positive = Some widget)
    by reflexivity.
  assert (H2 : product_objs two_instances_state !! 2%positive = Some widget)
    by reflexivity.
  assert (H3 : Product.pk widget = Some 1) by reflexivity.
  split; [exact H0|]. split; [exact H1|]. split; [exact H2|]. split; [exact H3|].
  exact (confirmation_with_stale_instance_overwrites admits_every_row
           two_instances_state 1 2 1 2 _ _ widget widget 1 H0 eq_refl eq_refl
           eq_refl eq_refl H1 H2 H3 H3 eq_refl eq_refl).
Defined.

(** ** [Order.__str__] *)

Lemma Order_str_run (st st1 : State) (self l : positive) (o : Order.t)
    (p : Product.t) :
  order_objs st !! self = Some o ->
  Order_product self st = (Returned l, st1) ->
  product_objs st1 !! l = Some p ->
  Order_str self st
  = (Returned (str_int (Order.quantity o) ++ " x " ++ Product.name p)%string, st1).
Proof.
  intros Ho Hres Hp. unfold Order_str.
  assert (Hget : Order_get self st = (Returned o, st))
    by (unfold_orm; by rewrite Ho).
  rewrite (bind_returned _ _ _ _ _ Hget), (bind_returned _ _ _ _ _ Hres).
  unfold_orm. by rewrite Hp.
Qed.

(** X13. [str(order)] is the order's quantity, " x " and the name of its
    product, and producing it reads only: both tables, the output, every
    existing product instance and every field of the order are left as they
    were; the one effect is that the order now caches its product.  It works
    from the cached instance alone, whatever the products table holds. *)
Theorem Order_str_label
    (st st1 : State) (self l : positive) (o : Order.t) (p : Product.t) :
  order_objs st !! self = Some o ->
  Order_product self st = (Returned l, st1) ->
  product_objs st1 !! l = Some p ->
  exists st',
    Order_str self st
    = (Returned (str_int (Order.quantity o) ++ " x " ++ Product.name p)%string, st')
    /\ products_table st' = products_table st
    /\ orders_table st' = orders_table st
    /\ stdout st' = stdout st
    /\ (forall l' q, product_objs st !! l' = Some q -> product_objs st' !! l' = Some q)
    /\ order_objs st' = <[self := Order.set_product_cache (Some l) o]> (order_objs st).
Proof.
  intros Ho Hres Hp. exists st1.
  destruct (Order_product_frame _ _ _ _ _ Ho Hres) as (Hpt & Hot & Hout & Hobjs & Hkeep & _).
  split; [exact (Order_str_run _ _ _ _ _ _ Ho Hres Hp)|]. done.
Qed.

Lemma Order_str_label_widget :
  order_objs widget_loaded_state !! 1%positive = Some widget_order_loaded
  /\ Order_product 1 widget_loaded_state
     = (Returned 1%positive, (Order_product 1 widget_loaded_state).2)
  /\ product_objs (Order_product 1 widget_loaded_state).2 !! 1%positive = Some widget
  /\ exists st',
       Order_str 1 widget_loaded_state = (Returned "3 x Widget"%string, st')
       /\ products_table st' = products_table widget_loaded_state
       /\ orders_table st' = orders_table widget_loaded_state
       /\ stdout st' = stdout widget_loaded_state
       /\ (forall l' q, product_objs widget_loaded_state !! l' = Some q ->
                        product_objs st' !! l' = Some q)
       /\ order_objs st'
          = <[1%positive := Order.set_product_cache (Some 1%positive)
                              widget_order_loaded]>
              (order_objs widget_loaded_state).
Proof.
  assert (H1 : order_objs widget_loaded_state !! 1%positive
               = Some widget_order_loaded) by reflexivity.
  assert (H2 : Order_product 1 widget_loaded_state
               = (Returned 1%positive, (Order_product 1 widget_loaded_state).2))
    by reflexivity.
  assert (H3 : product_objs (Order_product 1 widget_loaded_state).2 !! 1%positive
               = Some widget) by reflexivity.
  split; [exact H1|]. split; [exact H2|]. split; [exact H3|].
  exact (Order_str_label widget_loaded_state _ 1 1 widget_order_loaded widget
           H1 H2 H3).
Defined.

(** X14. [str(order)] raises when nothing stands behind the order's
    product and no instance is cached: [RelatedObjectDoesNotExist] for an
    order without a key, [DoesNotExist] for a key with no row.  The state is
    left exactly as it was. *)
Theorem Order_str_unresolved (st : State) (self : positive) (o : Order.t) :
  order_objs st !! self = Some o ->
  Order.product_cache o = None ->
  (forall k, Order.product_id o = Some k -> products_table st !! k = None) ->
  Order_str self st
  = (Raised match Order.product_id o with
            | None => RelatedObjectDoesNotExist
            | Some _ => DoesNotExist
            end, st).
Proof.
  intros Ho Hc Hk. unfold Order_str.
  assert (Hget : Order_get self st = (Returned o, st))
    by (unfold_orm; by rewrite Ho).
  rewrite (bind_returned _ _ _ _ _ Hget).
  assert (Hres : Order_product self st
                 = (Raised match Order.product_id o with
                           | None => RelatedObjectDoesNotExist
                           | Some _ => DoesNotExist
                           end, st)).
  { unfold_orm. rewrite Ho, Hc. destruct (Order.product_id o) as [k|]; [|done].
    by rewrite (Hk k eq_refl). }
  by rewrite (bind_raised _ _ _ _ _ Hres).
Qed.

Lemma Order_str_unresolved_widget :
  let orphan := Order.mk (Some 1) (Some 1) None 3 None false in
  let st := mk_State ∅ {[ 1%positive := orphan ]} ∅ ∅ [] in
  order_objs st !! 1%positive = Some orphan
  /\ Order.product_cache orphan = None
  /\ (forall k, Order.product_id orphan = Some k -> products_table st !! k = None)
  /\ Order_str 1 st = (Raised DoesNotExist, st).
Proof.
  intros orphan st.
  assert (H1 : order_objs st !! 1%positive = Some orphan) by reflexivity.
  assert (H2 : Order.product_cache orphan = None) by reflexivity.
  assert (H3 : forall k, Order.product_id orphan = Some k ->
                         products_table st !! k = None) by (intros k _; reflexivity).
  split; [exact H1|]. split; [exact H2|]. split; [exact H3|].
  exact (Order_str_unresolved st 1 orphan H1 H2 H3).
Defined.

(** X15. A confirmation does not change how the order prints: when the
    receiver has returned, [str(order)] is the string it was before, the
    receiver having changed neither the order's quantity nor the product's
    name. *)
Theorem Order_str_unchanged_by_confirmation
    (admits : Product.row -> bool) (st st1 st' : State) (sender l : positive)
    (o : Order.t) (p : Product.t) :
  order_objs st !! sender = Some o ->
  Order_product sender st = (Returned l, st1) ->
  product_objs st1 !! l = Some p ->
  update_quantity_on_order_confirmation admits sender st = (Returned tt, st') ->
  (Order_str sender st).1
  = Returned (str_int (Order.quantity o) ++ " x " ++ Product.name p)%string
  /\ (Order_str sender st').1 = (Order_str sender st).1.
Proof.
  intros Ho Hres Hp Hrun.
  destruct (Order_product_frame _ _ _ _ _ Ho Hres) as (_ & _ & _ & Hobjs & _).
  rewrite (Order_str_run _ _ _ _ _ _ Ho Hres Hp). split; [done|].
  rewrite (receiver_run admits _ _ _ _ _ _ Ho Hres Hp) in Hrun. simpl in Hrun.
  assert (Ho1 : order_objs st1 !! sender = Some (Order.set_product_cache (Some l) o))
    by (by rewrite Hobjs, lookup_insert_eq).
  destruct (admits _); [|done].
  assert (Hagain : forall (st2 : State) (p2 : Product.t),
    order_objs st2 = order_objs st1 ->
    product_objs st2 !! l = Some p2 ->
    Product.name p2 = Product.name p ->
    (Order_str sender st2).1
    = Returned (str_int (Order.quantity o) ++ " x " ++ Product.name p)%string).
  { intros st2 p2 Ho2 Hp2 Hname. rewrite <- Ho2 in Ho1.
    pose proof (Order_product_cached _ _ _ _ Ho1 eq_refl) as Hres2.
    rewrite (Order_str_run _ _ _ _ _ _ Ho1 Hres2 Hp2). simpl. by rewrite Hname. }
  destruct (Product.pk p) as [k|]; injection Hrun as <-.
  - eapply Hagain; [done| |]; [simpl_state; by rewrite lookup_insert_eq|done].
  - eapply Hagain; [done| |]; [simpl_state; by rewrite lookup_insert_eq|done].
Qed.

Lemma Order_str_unchanged_by_confirmation_widget :
  order_objs widget_state !! 1%positive = Some widget_order
  /\ Order_product 1 widget_state = (Returned 1%positive, widget_state)
  /\ product_objs widget_state !! 1%positive = Some widget
  /\ update_quantity_on_order_confirmation admits_every_row 1 widget_state
     = (Returned tt,
        (update_quantity_on_order_confirmation admits_every_row 1 widget_state).2)
  /\ (Order_str 1 widget_state).1 = Returned "3 x Widget"%string
  /\ (Order_str 1
        (update_quantity_on_order_confirmation admits_every_row 1 widget_state).2).1
     = (Order_str 1 widget_state).1.
Proof.
  assert (H1 : order_objs widget_state !! 1%positive = Some widget_order)
    by reflexivity.
  assert (H2 : Order_product 1 widget_state = (Returned 1%positive, widget_state))
    by reflexivity.
  assert (H3 : product_objs widget_state !! 1%positive = Some widget)
    by reflexivity.
  assert (H4 : update_quantity_on_order_confirmation admits_every_row 1 widget_state
     = (Returned tt,
        (update_quantity_on_order_confirmation admits_every_row 1 widget_state).2))
    by (vm_compute; reflexivity).
  split; [exact H1|]. split; [exact H2|]. split; [exact H3|]. split; [exact H4|].
  exact (Order_str_unchanged_by_confirmation admits_every_row widget_state
           widget_state _ 1 1 widget_order widget H1 H2 H3 H4).
Defined.

(** ** Creating an order, and deleting a product *)



Lemma Product_delete_run (st : State) (l : positive) (p : Product.t) (k : Z) :
  product_objs st !! l = Some p ->
  Product.pk p = Some k ->
  Product_delete l st
  = (Returned tt,
     set_product_objs
       (<[l := Product.mk None (Product.name p) (Product.price p)
                 (Product.quantity p)]> (product_objs st))
       (set_products_table (delete k (products_table st))
          (set_orders_table
             (filter (fun kv => Order.row_product_id kv.2 <> k) (orders_table st))
             st))).
Proof.
  intros Hp Hpk. unfold Product_delete. unfold_orm. by rewrite Hp, Hpk.
Qed.

(** X18. A deleted product cannot be brought back through an order still
    in memory: after [product.delete()], saving an order that holds the
    deleted instance raises [ValueError], the product's row stays gone and no
    order row refers to it. *)
Theorem Order_save_after_Product_delete
    (qmax : N) (st : State) (self l : positive) (o : Order.t) (p : Product.t)
    (k : Z) :
  order_objs st !! self = Some o ->
  Order.product_cache o = Some l ->
  product_objs st !! l = Some p ->
  Product.pk p = Some k ->
  exists st',
    (Product_delete l;; Order_save qmax self) st = (Raised ValueError, st')
    /\ products_table st' !! k = None
    /\ (forall i row, orders_table st' !! i = Some row ->
                      Order.row_product_id row <> k).
Proof.
  intros Ho Hc Hp Hpk.
  rewrite (bind_returned _ _ _ _ _ (Product_delete_run _ _ _ _ Hp Hpk)).
  match goal with |- context [Order_save qmax self ?s] => set (st1 := s) end.
  assert (Ho1 : order_objs st1 !! self = Some o) by done.
  pose proof (Order_product_cached _ _ _ _ Ho1 Hc) as Hres.
  assert (Hp1 : product_objs st1 !! l
                = Some (Product.mk None (Product.name p) (Product.price p)
                          (Product.quantity p))).
  { subst st1. simpl_state. by rewrite lookup_insert_eq. }
  rewrite (Order_save_run qmax _ _ _ _ _ _ Ho1 Hres Hp1). cbv zeta. simpl_fields.
  eexists. split; [done|]. subst st1. simpl_state.
  split; [by rewrite lookup_delete_eq|].
  intros i row Hi. by apply map_lookup_filter_Some in Hi as [_ Hne].
Qed.

Lemma Order_save_after_Product_delete_widget :
  order_objs two_instances_state !! 1%positive
  = Some (Order.mk (Some 1) (Some 1) (Some 1%positive) 3
            (Some (Decimal.mk 2997 (-2))) true)
  /\ product_objs two_instances_state !! 1%positive = Some widget
  /\ Product.pk widget = Some 1
  /\ exists st',
       (Product_delete 1;; Order_save sqlite_integer_max 1) two_instances_state
       = (Raised ValueError, st')
       /\ products_table st' !! 1 = None
       /\ (forall i row, orders_table st' !! i = Some row ->
                         Order.row_product_id row <> 1).
Proof.
  assert (H1 : order_objs two_instances_state !! 1%positive
     = Some (Order.mk (Some 1) (Some 1) (Some 1%positive) 3
               (Some (Decimal.mk 2997 (-2))) true)) by reflexivity.
  assert (H2 : product_objs two_instances_state !! 1%positive = Some widget)
    by reflexivity.
  assert (H3 : Product.pk widget = Some 1) by reflexivity.
  split; [exact H1|]. split; [exact H2|]. split; [exact H3|].
  exact (Order_save_after_Product_delete sqlite_integer_max two_instances_state 1 1 _ widget 1
           H1 eq_refl H2 H3).
Defined.
